(** * Room coordinator of the buzzer app (server.ts)

    A shallow embedding of the Socket.io server of the repository: the two
    process-wide maps [rooms] and [playerToRoom], the nine event handlers
    registered on every connection, and the two helpers [generateRoomCode]
    and [getRoomState].  One handler runs to completion before the next one
    starts (Node's event loop), so a handler is a function from the server
    state to the next server state and the list of messages it emits.

    Conventions of the model:
    - a JavaScript string is a [string]; the model covers ASCII text, on
      which [toUpperCase] and [trim] below are the JavaScript ones;
    - [Date.now()] and [Math.random()] are inputs of the handler that reads
      them: a timestamp [now : Z], and the sequence [rnd : nat -> nat] of the
      values [Math.floor(Math.random() * chars.length)];
    - [rooms] and [playerToRoom] are never enumerated and are finite maps;
      [room.players] is enumerated by [getRoomState], so it keeps the
      insertion order of a JavaScript [Map];
    - membership of Socket.io broadcast rooms ([socket.join]) belongs to the
      transport: a message records the target it was emitted to. *)

From Stdlib Require Import ZArith Ascii String.
From stdpp Require Import gmap strings list fin_maps.

Open Scope string_scope.
Open Scope list_scope.

(** ** JavaScript strings *)

(** [s.charAt(i)]: the one-character string at index [i], the empty string
    when [i] is out of range. *)
Definition charAt (s : string) (i : nat) : string :=
  match String.get i s with
  | Some c => String c EmptyString
  | None => EmptyString
  end.

Definition upper_ascii (c : ascii) : ascii :=
  let n := nat_of_ascii c in
  if (97 <=? n)%nat && (n <=? 122)%nat then ascii_of_nat (n - 32) else c.

(** [s.toUpperCase()] on ASCII text. *)
Fixpoint toUpperCase (s : string) : string :=
  match s with
  | EmptyString => EmptyString
  | String c s' => String (upper_ascii c) (toUpperCase s')
  end.

(** White space and line terminators of ECMAScript below code 128. *)
Definition is_space (c : ascii) : bool :=
  let n := nat_of_ascii c in
  ((9 <=? n)%nat && (n <=? 13)%nat) || (n =? 32)%nat.

Fixpoint trimStart (s : string) : string :=
  match s with
  | EmptyString => EmptyString
  | String c s' => if is_space c then trimStart s' else s
  end.

(** Drops trailing white space: a character is kept when it is not a space
    or when something is kept after it. *)
Fixpoint trimEnd (s : string) : string :=
  match s with
  | EmptyString => EmptyString
  | String c s' =>
      match trimEnd s' with
      | EmptyString => if is_space c then EmptyString else String c EmptyString
      | t => String c t
      end
  end.

(** [s.trim()]. *)
Definition trim (s : string) : string := trimEnd (trimStart s).

(** ** An insertion-ordered map with string keys (JavaScript [Map]) *)

Module JsMap.
Section Ops.
Context {V : Type}.

Definition t := list (string * V).

(** [m.get(k)] *)
Fixpoint get (k : string) (m : list (string * V)) : option V :=
  match m with
  | [] => None
  | (k', v) :: m' => if decide (k' = k) then Some v else get k m'
  end.

(** [m.set(k, v)]: an existing key keeps its place, a new one goes last. *)
Fixpoint set (k : string) (v : V) (m : list (string * V)) : list (string * V) :=
  match m with
  | [] => [(k, v)]
  | (k', v') :: m' =>
      if decide (k' = k) then (k, v) :: m' else (k', v') :: set k v m'
  end.

(** [m.delete(k)] *)
Fixpoint delete (k : string) (m : list (string * V)) : list (string * V) :=
  match m with
  | [] => []
  | (k', v') :: m' =>
      if decide (k' = k) then delete k m' else (k', v') :: delete k m'
  end.

(** [m.size] *)
Definition size (m : list (string * V)) : nat := length m.

(** [Array.from(m.values())] *)
Definition values (m : list (string * V)) : list V := map snd m.

Definition keys (m : list (string * V)) : list string := map fst m.

(** [m.forEach(v => ...)] where the callback mutates the value in place. *)
Definition forEach (f : V -> V) (m : list (string * V)) : list (string * V) :=
  map (fun kv => (fst kv, f (snd kv))) m.
End Ops.
Arguments t : clear implicits.
End JsMap.

(** ** Data model (src/types/game.ts) *)

Record Player := mkPlayer {
  id : string;
  name : string;
  buzzTime : option Z
}.

(** The source's field [id] of a room is [roomId] here: projections share
    one name space with [Player]'s. *)
Record Room := mkRoom {
  roomId : string;
  code : string;
  hostId : string;
  players : JsMap.t Player;
  isActive : bool;
  roundStartTime : option Z;
  buzzOrder : list string
}.

(** The snapshot sent to clients; its fields carry the prefix [rs_]. *)
Record RoomState := mkRoomState {
  rs_code : string;
  rs_players : list Player;
  rs_isActive : bool;
  rs_buzzOrder : list Player
}.

(** ServerToClientEvents *)
Inductive ServerEvent :=
  | roomCreated (roomCode : string)
  | hostJoined (roomCode : string)
  | roomJoined (roomCode playerName : string)
  | playerJoined (player : Player)
  | playerLeft (playerId : string)
  | roundStarted (startTime : Z)
  | roundStopped
  | roundReset
  | buzzerPressed (player : Player) (position : nat)
  | roomState (data : RoomState)
  | error (message : string).

(** [socket.emit] reaches one connection, [io.to(code).emit] a broadcast
    room. *)
Inductive Target :=
  | ToSocket (socketId : string)
  | ToRoom (roomCode : string).

Definition Emit : Type := Target * ServerEvent.

(** ClientToServerEvents, and the transport's [disconnect]. *)
Inductive ClientEvent :=
  | CreateRoom (rnd : nat -> nat)
  | JoinAsHost (roomCode : string)
  | JoinRoom (roomCode playerName : string)
  | StartRound (now : Z)
  | StopRound
  | ResetRound
  | PressBuzzer (now : Z)
  | GetRoomState
  | Disconnect.

(** The in-memory room storage. *)
Record Server := mkServer {
  rooms : gmap string Room;
  playerToRoom : gmap string string
}.

Definition initial : Server := mkServer ∅ ∅.

(** ** Helpers *)

Definition chars : string := "ABCDEFGHJKLMNPQRSTUVWXYZ23456789".

(** The body of the [for] loop of [generateRoomCode]: [n] iterations left,
    the next random value at index [pos]. *)
Fixpoint codeLoop (rnd : nat -> nat) (pos n : nat) (acc : string) : string :=
  match n with
  | O => acc
  | S n' => codeLoop rnd (S pos) n' (acc ++ charAt chars (rnd pos))%string
  end.

Definition generateRoomCode (rnd : nat -> nat) (pos : nat) : string :=
  codeLoop rnd pos 6 "".

Definition getRoomState (room : Room) : RoomState :=
  {| rs_code := code room;
     rs_players := JsMap.values (players room);
     rs_isActive := isActive room;
     rs_buzzOrder := omap (fun i => JsMap.get i (players room)) (buzzOrder room) |}.

(** [!room.roundStartTime] for [number | null]. *)
Definition noStart (t : option Z) : bool :=
  match t with
  | None => true
  | Some z => (z =? 0)%Z
  end.

Definition clearBuzz (p : Player) : Player :=
  {| id := id p; name := name p; buzzTime := None |}.

(** ** Handlers *)

(** [while (rooms.has(code)) code = generateRoomCode()]: [fuel] bounds the
    number of further draws; [None] when it runs out. *)
Fixpoint retryCode (fuel : nat) (rs : gmap string Room) (rnd : nat -> nat)
    (pos : nat) (c : string) : option string :=
  match rs !! c with
  | None => Some c
  | Some _ =>
      match fuel with
      | O => None
      | S fuel' => retryCode fuel' rs rnd (pos + 6) (generateRoomCode rnd pos)
      end
  end.

Definition createRoom (fuel : nat) (st : Server) (sid : string)
    (rnd : nat -> nat) : option (Server * list Emit) :=
  match retryCode fuel (rooms st) rnd 6 (generateRoomCode rnd 0) with
  | None => None
  | Some c =>
      let room := {| roomId := c; code := c; hostId := sid; players := [];
                     isActive := false; roundStartTime := None;
                     buzzOrder := [] |} in
      Some ({| rooms := <[c := room]> (rooms st);
               playerToRoom := <[sid := c]> (playerToRoom st) |},
            [(ToSocket sid, roomCreated c)])
  end.

Definition joinAsHost (st : Server) (sid roomCode : string)
    : Server * list Emit :=
  match rooms st !! toUpperCase roomCode with
  | None => (st, [(ToSocket sid, error "Room not found")])
  | Some room =>
      let room' := {| roomId := roomId room; code := code room; hostId := sid;
                      players := players room; isActive := isActive room;
                      roundStartTime := roundStartTime room;
                      buzzOrder := buzzOrder room |} in
      ({| rooms := <[toUpperCase roomCode := room']> (rooms st);
          playerToRoom := <[sid := toUpperCase roomCode]> (playerToRoom st) |},
       [(ToSocket sid, hostJoined (code room))])
  end.

Definition joinRoom (st : Server) (sid roomCode playerName : string)
    : Server * list Emit :=
  match rooms st !! toUpperCase roomCode with
  | None => (st, [(ToSocket sid, error "Room not found")])
  | Some room =>
      let player := {| id := sid; name := playerName; buzzTime := None |} in
      let room' := {| roomId := roomId room; code := code room;
                      hostId := hostId room;
                      players := JsMap.set sid player (players room);
                      isActive := isActive room;
                      roundStartTime := roundStartTime room;
                      buzzOrder := buzzOrder room |} in
      ({| rooms := <[toUpperCase roomCode := room']> (rooms st);
          playerToRoom := <[sid := toUpperCase roomCode]> (playerToRoom st) |},
       [(ToSocket sid, roomJoined (code room) playerName);
        (ToRoom (code room), playerJoined player);
        (ToRoom (code room), roomState (getRoomState room'))])
  end.

(** The guard shared by the three host commands: the room the connection is
    bound to, when the connection is that room's host. *)
Definition hostRoom (st : Server) (sid : string) : option (string * Room) :=
  match playerToRoom st !! sid with
  | None => None
  | Some rc =>
      if bool_decide (rc = "") then None
      else match rooms st !! rc with
           | None => None
           | Some room =>
               if bool_decide (hostId room = sid) then Some (rc, room)
               else None
           end
  end.

Definition startRound (st : Server) (sid : string) (now : Z)
    : Server * list Emit :=
  match hostRoom st sid with
  | None => (st, [])
  | Some (rc, room) =>
      let room' := {| roomId := roomId room; code := code room;
                      hostId := hostId room;
                      players := JsMap.forEach clearBuzz (players room);
                      isActive := true; roundStartTime := Some now;
                      buzzOrder := [] |} in
      ({| rooms := <[rc := room']> (rooms st);
          playerToRoom := playerToRoom st |},
       [(ToRoom rc, roundStarted now);
        (ToRoom rc, roomState (getRoomState room'))])
  end.

Definition stopRound (st : Server) (sid : string) : Server * list Emit :=
  match hostRoom st sid with
  | None => (st, [])
  | Some (rc, room) =>
      let room' := {| roomId := roomId room; code := code room;
                      hostId := hostId room; players := players room;
                      isActive := false;
                      roundStartTime := roundStartTime room;
                      buzzOrder := buzzOrder room |} in
      ({| rooms := <[rc := room']> (rooms st);
          playerToRoom := playerToRoom st |},
       [(ToRoom rc, roundStopped);
        (ToRoom rc, roomState (getRoomState room'))])
  end.

Definition resetRound (st : Server) (sid : string) : Server * list Emit :=
  match hostRoom st sid with
  | None => (st, [])
  | Some (rc, room) =>
      let room' := {| roomId := roomId room; code := code room;
                      hostId := hostId room;
                      players := JsMap.forEach clearBuzz (players room);
                      isActive := false; roundStartTime := None;
                      buzzOrder := [] |} in
      ({| rooms := <[rc := room']> (rooms st);
          playerToRoom := playerToRoom st |},
       [(ToRoom rc, roundReset);
        (ToRoom rc, roomState (getRoomState room'))])
  end.

Definition pressBuzzer (st : Server) (sid : string) (now : Z)
    : Server * list Emit :=
  match playerToRoom st !! sid with
  | None => (st, [])
  | Some rc =>
      if bool_decide (rc = "") then (st, [])
      else match rooms st !! rc with
      | None => (st, [])
      | Some room =>
          if negb (isActive room) || noStart (roundStartTime room)
          then (st, [])
          else match JsMap.get sid (players room), roundStartTime room with
          | Some player, Some start =>
              match buzzTime player with
              | Some _ => (st, [])
              | None =>
                  let player' := {| id := id player; name := name player;
                                    buzzTime := Some (now - start)%Z |} in
                  let room' :=
                    {| roomId := roomId room; code := code room;
                       hostId := hostId room;
                       players := JsMap.set sid player' (players room);
                       isActive := isActive room;
                       roundStartTime := roundStartTime room;
                       buzzOrder := buzzOrder room ++ [sid] |} in
                  let position := length (buzzOrder room') in
                  ({| rooms := <[rc := room']> (rooms st);
                      playerToRoom := playerToRoom st |},
                   [(ToRoom rc, buzzerPressed player' position);
                    (ToRoom rc, roomState (getRoomState room'))])
              end
          | _, _ => (st, [])
          end
      end
  end.

(** The handler of the [getRoomState] event. *)
Definition onGetRoomState (st : Server) (sid : string) : Server * list Emit :=
  match playerToRoom st !! sid with
  | None => (st, [])
  | Some rc =>
      if bool_decide (rc = "") then (st, [])
      else match rooms st !! rc with
      | None => (st, [])
      | Some room => (st, [(ToSocket sid, roomState (getRoomState room))])
      end
  end.

Definition disconnect (st : Server) (sid : string) : Server * list Emit :=
  match playerToRoom st !! sid with
  | None => (st, [])
  | Some rc =>
      if bool_decide (rc = "") then (st, [])
      else match rooms st !! rc with
      | None => (st, [])
      | Some room =>
          if bool_decide (hostId room = sid) then
            ({| rooms := delete rc (rooms st);
                playerToRoom := delete sid (playerToRoom st) |},
             [(ToRoom rc, error "Host left the room")])
          else
            let room' :=
              {| roomId := roomId room; code := code room;
                 hostId := hostId room;
                 players := JsMap.delete sid (players room);
                 isActive := isActive room;
                 roundStartTime := roundStartTime room;
                 buzzOrder := filter (fun i => i ≠ sid) (buzzOrder room) |} in
            ({| rooms := <[rc := room']> (rooms st);
                playerToRoom := delete sid (playerToRoom st) |},
             [(ToRoom rc, playerLeft sid);
              (ToRoom rc, roomState (getRoomState room'))])
      end
  end.

(** ** The server as a transition system *)

(** One event of connection [sid], handled to completion. *)
Definition step (fuel : nat) (st : Server) (sid : string) (ev : ClientEvent)
    : option (Server * list Emit) :=
  match ev with
  | CreateRoom rnd => createRoom fuel st sid rnd
  | JoinAsHost rc => Some (joinAsHost st sid rc)
  | JoinRoom rc nm => Some (joinRoom st sid rc nm)
  | StartRound now => Some (startRound st sid now)
  | StopRound => Some (stopRound st sid)
  | ResetRound => Some (resetRound st sid)
  | PressBuzzer now => Some (pressBuzzer st sid now)
  | GetRoomState => Some (onGetRoomState st sid)
  | Disconnect => Some (disconnect st sid)
  end.

(** A sequence of events, in the order the event loop handles them; the
    emitted messages are collected in order. *)
Fixpoint run (fuel : nat) (st : Server) (evs : list (string * ClientEvent))
    : option (Server * list Emit) :=
  match evs with
  | [] => Some (st, [])
  | (sid, ev) :: evs' =>
      match step fuel st sid ev with
      | None => None
      | Some (st1, out1) =>
          match run fuel st1 evs' with
          | None => None
          | Some (st2, out2) => Some (st2, out1 ++ out2)
          end
      end
  end.

(** The states the server can be in. *)
Inductive reachable : Server -> Prop :=
  | reachable_initial : reachable initial
  | reachable_step fuel st sid ev st' out :
      reachable st -> step fuel st sid ev = Some (st', out) -> reachable st'.

(** The spec's round status, read off the two fields the code keeps:
    [Active] while [isActive]; otherwise [Stopped] when a round start is
    still recorded and [Idle] when none is. *)
Inductive Status := Idle | Active | Stopped.

Definition status (room : Room) : Status :=
  if isActive room then Active
  else match roundStartTime room with
       | Some _ => Stopped
       | None => Idle
       end.

(** ** The join forms of the client

    The home page ([handleJoinRoom] of [Home], src/app/page.tsx) and the
    join page ([handleJoin] of [JoinPage]) check the name before they send a
    [joinRoom]: a form either shows an error and sends nothing, or sends one
    event. *)
Inductive FormResult :=
  | setError (message : string)
  | emit (ev : ClientEvent).

Definition handleJoin (roomCode playerName : string) : FormResult :=
  if bool_decide (trim playerName = "")
  then setError "Please enter your name"
  else emit (JoinRoom (toUpperCase roomCode) (trim playerName)).

Definition handleJoinRoom (roomCode playerName : string) : FormResult :=
  if bool_decide (trim roomCode = "") || bool_decide (trim playerName = "")
  then setError "Please enter both room code and your name"
  else emit (JoinRoom (toUpperCase roomCode) (trim playerName)).

(** The [maxLength] of the name field of both forms. *)
Definition maxLength : nat := 20.

(** The part of the spec's room invariants that every handler keeps:
    every entry of [buzzOrder] is a key of [players], a contestant whose
    [buzzTime] is set is listed in [buzzOrder], and an active room has a
    [roundStartTime]. *)
Definition room_ok (room : Room) : Prop :=
  (forall k, k ∈ buzzOrder room -> is_Some (JsMap.get k (players room))) /\
  (forall k p, JsMap.get k (players room) = Some p ->
               is_Some (buzzTime p) -> k ∈ buzzOrder room) /\
  (isActive room = true -> is_Some (roundStartTime room)).

(** What C2 and C3 ask of a room: [buzzOrder] has no duplicates, and a
    connection is listed in it exactly when it is a contestant whose
    [buzzTime] is set. *)
Definition room_inv (room : Room) : Prop :=
  NoDup (buzzOrder room) /\
  (forall k, k ∈ buzzOrder room <->
             exists p, JsMap.get k (players room) = Some p /\
                       is_Some (buzzTime p)).

(** A [joinRoom] sent by a connection that holds a place in the [buzzOrder]
    of the room it names. *)
Definition rejoins (st : Server) (sid : string) (ev : ClientEvent) : bool :=
  match ev with
  | JoinRoom roomCode _ =>
      match rooms st !! toUpperCase roomCode with
      | Some room => bool_decide (sid ∈ buzzOrder room)
      | None => false
      end
  | _ => false
  end.

(** No event of the run is such a [joinRoom]. *)
Fixpoint noRejoin (fuel : nat) (st : Server)
    (evs : list (string * ClientEvent)) : bool :=
  match evs with
  | [] => true
  | (sid, ev) :: evs' =>
      negb (rejoins st sid ev) &&
      match step fuel st sid ev with
      | Some (st1, _) => noRejoin fuel st1 evs'
      | None => true
      end
  end.

(** ** The play page of the client (src/app/play/[roomCode]/page.tsx)

    The React state the page derives from the server's events: whether this
    contestant has signalled and the position it shows.  A handler takes the
    state before and gives the state after its [set...] calls. *)
Record PlayState := mkPlayState {
  pl_roomState : option RoomState;
  hasBuzzed : bool;
  myPosition : option nat
}.

(** [arr.findIndex(f)], [None] where JavaScript gives -1. *)
Fixpoint findIndex {A : Type} (f : A -> bool) (l : list A) : option nat :=
  match l with
  | [] => None
  | x :: l' => if f x then Some 0 else S <$> findIndex f l'
  end.

Definition handleRoomState (playerName : string) (state : RoomState)
    (c : PlayState) : PlayState :=
  match findIndex (fun p => bool_decide (name p = playerName))
                  (rs_buzzOrder state) with
  | Some myBuzz =>
      {| pl_roomState := Some state; hasBuzzed := true;
         myPosition := Some (myBuzz + 1) |}
  | None =>
      {| pl_roomState := Some state; hasBuzzed := hasBuzzed c;
         myPosition := myPosition c |}
  end.

Definition handleBuzzerPressed (playerName : string) (player : Player)
    (position : nat) (c : PlayState) : PlayState :=
  if bool_decide (name player = playerName)
  then {| pl_roomState := pl_roomState c; hasBuzzed := true;
          myPosition := Some position |}
  else c.

(** ** Well-formed registry entries *)

(** A room is stored under its own code, and [players] holds one record
    per connection, stored under the identifier the record carries. *)
Definition room_wf (rc : string) (room : Room) : Prop :=
  code room = rc /\ roomId room = rc /\
  NoDup (JsMap.keys (players room)) /\
  (forall k p, JsMap.get k (players room) = Some p -> id p = k).

(** A room with no recorded round start holds no arrival and no elapsed
    time. *)
Definition idle_empty (room : Room) : Prop :=
  roundStartTime room = None ->
  buzzOrder room = [] /\
  forall k p, JsMap.get k (players room) = Some p -> buzzTime p = None.

(** The characters a room code is made of: the capital letters and digits
    of [chars], which leave out I, O, 0 and 1. *)
Definition codeChar (c : ascii) : Prop :=
  c ∈ list_ascii_of_string chars /\
  c ∉ list_ascii_of_string "IO01".

(** ** Observations on a run *)

(** The ranks announced to room [rc]: the [position]s of the
    [buzzerPressed] events emitted to it, in the order of emission. *)
Definition ranks (rc : string) (out : list Emit) : list nat :=
  omap (fun e : Emit =>
          match e with
          | (ToRoom rc', buzzerPressed _ n) =>
              if decide (rc' = rc) then Some n else None
          | _ => None
          end) out.

(** The events that end the current round of room [rc] or take an entry out
    of its [buzzOrder]: a [startRound] or [resetRound] of its bound host, and
    the loss of a connection bound to it that is its host or holds a place
    in [buzzOrder]. *)
Definition endsRound (rc : string) (st : Server) (sid : string)
    (ev : ClientEvent) : bool :=
  match ev with
  | StartRound _ | ResetRound =>
      match hostRoom st sid with
      | Some (rc', _) => bool_decide (rc' = rc)
      | None => false
      end
  | Disconnect =>
      match playerToRoom st !! sid, rooms st !! rc with
      | Some rc', Some room =>
          bool_decide (rc' = rc) &&
          (bool_decide (hostId room = sid) ||
           bool_decide (sid ∈ buzzOrder room))
      | _, _ => false
      end
  | _ => false
  end.

(** No event of the run ends the round of [rc], each looked at in the state
    it is handled in. *)
Fixpoint sameRound (fuel : nat) (rc : string) (st : Server)
    (evs : list (string * ClientEvent)) : bool :=
  match evs with
  | [] => true
  | (sid, ev) :: evs' =>
      negb (endsRound rc st sid ev) &&
      match step fuel st sid ev with
      | Some (st1, _) => sameRound fuel rc st1 evs'
      | None => true
      end
  end.

(** The code drawn by the [j]-th call of [generateRoomCode] in one
    [createRoom]: each call reads six random values. *)
Definition attempt (rnd : nat -> nat) (j : nat) : string :=
  generateRoomCode rnd (6 * j).

(** The code space: the words of [n] characters of [chars]. *)
Fixpoint words (n : nat) : list string :=
  match n with
  | O => [""]
  | S n' =>
      seq 0 32 ≫= (fun i => String.append (charAt chars i) <$> words n')
  end.

(** The assumption made of [Math.random()] where termination of the retry
    loop is at stake: the successive calls of [generateRoomCode] reach every
    code of the code space.  Independent uniform draws do so with
    probability 1; a sequence that repeats the code of a live room for ever
    does not. *)
Definition draws_every_code (rnd : nat -> nat) : Prop :=
  forall w, w ∈ words 6 -> exists n, attempt rnd n = w.

(** ** Concrete runs *)

(** [Math.random()] below 1/32 at every call: every draw is index 0. *)
Definition zeros : nat -> nat := fun _ => 0.

(** Draws that count through the code space: the [n]-th call of
    [generateRoomCode] reads the six base-32 digits of [n], the most
    significant first. *)
Definition counting (i : nat) : nat :=
  Z.to_nat ((Z.of_nat (i / 6) / 32 ^ (5 - Z.of_nat (i mod 6))) mod 32).

(** Host [h] creates room AAAAAA; [p] and [q] join; [h] starts a round at
    time 100; [p] signals at 110. *)
Definition quiz_run : list (string * ClientEvent) :=
  [("h", CreateRoom zeros); ("p", JoinRoom "aaaaaa" "Mona");
   ("q", JoinRoom "AAAAAA" "Ravi"); ("h", StartRound 100);
   ("p", PressBuzzer 110)].

Definition quiz_room : Room :=
  {| roomId := "AAAAAA"; code := "AAAAAA"; hostId := "h";
     players := [("p", mkPlayer "p" "Mona" (Some 10%Z));
                 ("q", mkPlayer "q" "Ravi" None)];
     isActive := true; roundStartTime := Some 100%Z; buzzOrder := ["p"] |}.

Definition quiz : Server :=
  {| rooms := {[ "AAAAAA" := quiz_room ]};
     playerToRoom := {[ "h" := "AAAAAA"; "p" := "AAAAAA"; "q" := "AAAAAA" ]} |}.

(** Three contestants; [a] and [b] signal, [a]'s connection is lost, then
    [c] signals. *)
Definition departure_run : list (string * ClientEvent) :=
  [("h", CreateRoom zeros); ("a", JoinRoom "AAAAAA" "A");
   ("b", JoinRoom "AAAAAA" "B"); ("c", JoinRoom "AAAAAA" "C");
   ("h", StartRound 100); ("a", PressBuzzer 110); ("b", PressBuzzer 120);
   ("a", Disconnect); ("c", PressBuzzer 130)].

(** One contestant signals and then sends [joinRoom] again on the same
    connection. *)
Definition rejoin_run : list (string * ClientEvent) :=
  [("h", CreateRoom zeros); ("p", JoinRoom "AAAAAA" "Mona");
   ("h", StartRound 100); ("p", PressBuzzer 110);
   ("p", JoinRoom "AAAAAA" "Mona")].

(** From [quiz]: [q] signals, [p] signals a second time, a late contestant
    [x] joins and signals, the host stops the round. *)
Definition late_run : list (string * ClientEvent) :=
  [("q", PressBuzzer 120); ("p", PressBuzzer 130);
   ("x", JoinRoom "AAAAAA" "Xi"); ("x", PressBuzzer 140); ("h", StopRound)].

(** * Properties *)

(** ** Examples of the model *)

Example code_of_zero_draws : generateRoomCode (fun _ => 0) 0 = "AAAAAA".
Proof. reflexivity. Qed.

Example trim_example : trim "  Mona  " = "Mona".
Proof. reflexivity. Qed.

Example quiz_is_reached : fst <$> run 0 initial quiz_run = Some quiz.
Proof. vm_compute. reflexivity. Qed.

Example late_run_ranks :
  ranks "AAAAAA" <$> (snd <$> run 0 quiz late_run) = Some [2; 3].
Proof. vm_compute. reflexivity. Qed.

(** On draws that hit the live code AAAAAA once and then AAAAAB, the room is
    created under AAAAAB after one retry. *)
Example createRoom_after_one_retry :
  (fun r => snd r) <$>
    createRoom 1 quiz "x" (fun i => if decide (i = 11) then 1 else 0) =
  Some [(ToSocket "x", roomCreated "AAAAAB")].
Proof. vm_compute. reflexivity. Qed.

(** ** The insertion-ordered map *)

Section JsMapFacts.
Context {V : Type}.
Implicit Types (m : list (string * V)) (k : string) (v : V).

Lemma get_set_eq m k v : JsMap.get k (JsMap.set k v m) = Some v.
Proof.
  induction m as [|[k' v'] m IH]; simpl.
  - by rewrite decide_True.
  - destruct (decide (k' = k)) as [->|Hne]; simpl.
    + by rewrite decide_True.
    + by rewrite decide_False.
Qed.

Lemma get_set_ne m k k' v :
  k ≠ k' -> JsMap.get k' (JsMap.set k v m) = JsMap.get k' m.
Proof.
  intros Hne. induction m as [|[k0 v0] m IH]; simpl.
  - by rewrite decide_False.
  - destruct (decide (k0 = k)) as [->|Hk]; simpl.
    + by rewrite !decide_False.
    + destruct (decide (k0 = k')); [done | apply IH].
Qed.

Lemma get_delete_eq m k : JsMap.get k (JsMap.delete k m) = None.
Proof.
  induction m as [|[k0 v0] m IH]; simpl; [done|].
  destruct (decide (k0 = k)); simpl; [done|]. by rewrite decide_False.
Qed.

Lemma get_delete_ne m k k' :
  k ≠ k' -> JsMap.get k' (JsMap.delete k m) = JsMap.get k' m.
Proof.
  intros Hne. induction m as [|[k0 v0] m IH]; simpl; [done|].
  destruct (decide (k0 = k)) as [->|Hk]; simpl.
  - by rewrite decide_False.
  - destruct (decide (k0 = k')); [done | apply IH].
Qed.

Lemma delete_absent m k : JsMap.get k m = None -> JsMap.delete k m = m.
Proof.
  induction m as [|[k0 v0] m IH]; simpl; [done|].
  destruct (decide (k0 = k)); [done|]. intros H. by rewrite IH.
Qed.

Lemma get_forEach (f : V -> V) m k :
  JsMap.get k (JsMap.forEach f m) = f <$> JsMap.get k m.
Proof.
  induction m as [|[k0 v0] m IH]; simpl; [done|].
  destruct (decide (k0 = k)); [done | apply IH].
Qed.

Lemma keys_forEach (f : V -> V) m :
  JsMap.keys (JsMap.forEach f m) = JsMap.keys m.
Proof.
  unfold JsMap.keys, JsMap.forEach. rewrite map_map. by apply map_ext.
Qed.

End JsMapFacts.

Lemma filter_ne_absent (x : string) (l : list string) :
  x ∉ l -> filter (fun i => i ≠ x) l = l.
Proof.
  induction l as [|y l IH]; [done|].
  intros [Hy Hl]%not_elem_of_cons.
  rewrite filter_cons_True by congruence. by rewrite IH.
Qed.

(** ** Guards of the handlers *)

Lemma hostRoom_Some st sid rc room :
  hostRoom st sid = Some (rc, room) <->
  playerToRoom st !! sid = Some rc /\ rc ≠ "" /\
  rooms st !! rc = Some room /\ hostId room = sid.
Proof.
  unfold hostRoom. split.
  - intros H. repeat case_match; simplify_eq.
    repeat match goal with
           | H : bool_decide _ = _ |- _ =>
               first [ apply bool_decide_eq_true in H
                     | apply bool_decide_eq_false in H ]
           end.
    done.
  - intros (-> & Hne & -> & Hh).
    by rewrite bool_decide_eq_false_2, bool_decide_eq_true_2.
Qed.

Lemma retryCode_fresh fuel rs rnd pos c c' :
  retryCode fuel rs rnd pos c = Some c' -> rs !! c' = None.
Proof.
  revert pos c. induction fuel as [|fuel IH]; intros pos c; simpl.
  - destruct (rs !! c) eqn:E; [done | congruence].
  - destruct (rs !! c) eqn:E; [apply IH | congruence].
Qed.

(** Case analysis on the room a handler wrote: the room looked up after the
    handler is the one it stored, or one it left alone. *)
Ltac split_lookup H :=
  match type of H with
  | <[?a := _]> _ !! ?b = _ =>
      destruct (decide (a = b)) as [?|?];
      [ subst; rewrite lookup_insert_eq in H
      | rewrite lookup_insert_ne in H by done ]
  | delete ?a _ !! ?b = _ =>
      destruct (decide (a = b)) as [?|?];
      [ subst; rewrite lookup_delete_eq in H
      | rewrite lookup_delete_ne in H by done ]
  end.

Ltac bool_hyps :=
  repeat match goal with
         | H : bool_decide _ = true |- _ => apply bool_decide_eq_true in H
         | H : bool_decide _ = false |- _ => apply bool_decide_eq_false in H
         end.

(** A command that goes through a binding to a room that no longer exists
    is dropped. *)
Lemma stale_binding_is_inert st sid rc :
  playerToRoom st !! sid = Some rc -> rooms st !! rc = None ->
  (forall now, startRound st sid now = (st, [])) /\
  stopRound st sid = (st, []) /\
  resetRound st sid = (st, []) /\
  (forall now, pressBuzzer st sid now = (st, [])) /\
  onGetRoomState st sid = (st, []) /\
  disconnect st sid = (st, []).
Proof.
  intros Hb Hr.
  assert (hostRoom st sid = None) as E.
  { unfold hostRoom. rewrite Hb, Hr. by case_match. }
  unfold startRound, stopRound, resetRound, pressBuzzer, onGetRoomState,
    disconnect.
  rewrite E, Hb, Hr. split_and!; intros; by repeat case_match.
Qed.

(** ** What holds of every reachable state *)

Lemma room_ok_step fuel st sid ev st' out :
  (forall rc room, rooms st !! rc = Some room -> room_ok room) ->
  step fuel st sid ev = Some (st', out) ->
  forall rc room, rooms st' !! rc = Some room -> room_ok room.
Proof.
  intros Hinv Hstep rc room' Hr'.
  assert (forall k r, room_ok r -> <[k := r]> (rooms st) !! rc = Some room' ->
                      room_ok room') as Hput.
  { intros k r Hok Hl. split_lookup Hl; simplify_eq; eauto. }
  destruct ev; simpl in Hstep.
  - unfold createRoom in Hstep.
    destruct (retryCode _ _ _ _ _) as [c0|]; simplify_eq. simpl in Hr'.
    eapply Hput; [|exact Hr']. split_and!; simpl; [|done..].
    by intros k ?%not_elem_of_nil.
  - unfold joinAsHost in Hstep.
    destruct (rooms st !! toUpperCase roomCode) as [room|] eqn:Hr;
      simplify_eq; simpl in *; [|eauto].
    eapply Hput; [|exact Hr']. apply Hinv in Hr. exact Hr.
  - unfold joinRoom in Hstep.
    destruct (rooms st !! toUpperCase roomCode) as [room|] eqn:Hr;
      simplify_eq; simpl in *; [|eauto].
    eapply Hput; [|exact Hr']. apply Hinv in Hr as (H1 & H2 & H3).
    split_and!; simpl; [| |done].
    + intros k Hk. destruct (decide (sid = k)) as [->|Hne].
      * rewrite get_set_eq. by eexists.
      * rewrite get_set_ne by done. by apply H1.
    + intros k p. destruct (decide (sid = k)) as [->|Hne].
      * rewrite get_set_eq. intros [= <-] [? [=]].
      * rewrite get_set_ne by done. apply H2.
  - unfold startRound in Hstep.
    destruct (hostRoom st sid) as [[rc0 room]|] eqn:E; simplify_eq;
      simpl in *; [|eauto].
    eapply Hput; [|exact Hr']. split_and!; simpl.
    + by intros k ?%not_elem_of_nil.
    + intros k p. rewrite get_forEach.
      destruct (JsMap.get k (players room)); simpl; [|done].
      intros [= <-] [? [=]].
    + by eexists.
  - unfold stopRound in Hstep.
    destruct (hostRoom st sid) as [[rc0 room]|] eqn:E; simplify_eq;
      simpl in *; [|eauto].
    apply hostRoom_Some in E as (_ & _ & Hr & _).
    eapply Hput; [|exact Hr']. apply Hinv in Hr as (H1 & H2 & H3).
    by split_and!.
  - unfold resetRound in Hstep.
    destruct (hostRoom st sid) as [[rc0 room]|] eqn:E; simplify_eq;
      simpl in *; [|eauto].
    eapply Hput; [|exact Hr']. split_and!; simpl.
    + by intros k ?%not_elem_of_nil.
    + intros k p. rewrite get_forEach.
      destruct (JsMap.get k (players room)); simpl; [|done].
      intros [= <-] [? [=]].
    + done.
  - unfold pressBuzzer in Hstep.
    destruct (playerToRoom st !! sid) as [rc0|]; [|simplify_eq; eauto].
    destruct (bool_decide (rc0 = "")); [simplify_eq; eauto|].
    destruct (rooms st !! rc0) as [room|] eqn:Hr; [|simplify_eq; eauto].
    destruct (negb (isActive room) || noStart (roundStartTime room));
      [simplify_eq; eauto|].
    destruct (JsMap.get sid (players room)) as [player|];
      [|simplify_eq; eauto].
    destruct (roundStartTime room) as [start|] eqn:Hst;
      [|simplify_eq; eauto].
    destruct (buzzTime player); simplify_eq; [eauto|]. simpl in Hr'.
    eapply Hput; [|exact Hr']. apply Hinv in Hr as (H1 & H2 & H3).
    split_and!; simpl.
    + intros k Hk. destruct (decide (sid = k)) as [->|Hne].
      * rewrite get_set_eq. by eexists.
      * rewrite get_set_ne by done. apply H1.
        apply elem_of_app in Hk as [Hk|Hk%list_elem_of_singleton];
          [done | congruence].
    + intros k p. destruct (decide (sid = k)) as [->|Hne].
      * intros _ _. apply elem_of_app. right. by apply list_elem_of_singleton.
      * rewrite get_set_ne by done. intros Hg Hb.
        apply elem_of_app. left. by eapply H2.
    + by rewrite <- Hst.
  - unfold onGetRoomState in Hstep. repeat case_match; simplify_eq; eauto.
  - unfold disconnect in Hstep.
    destruct (playerToRoom st !! sid) as [rc0|]; [|simplify_eq; eauto].
    destruct (bool_decide (rc0 = "")); [simplify_eq; eauto|].
    destruct (rooms st !! rc0) as [room|] eqn:Hr; [|simplify_eq; eauto].
    destruct (bool_decide (hostId room = sid)); simplify_eq; simpl in Hr'.
    + split_lookup Hr'; [done | eauto].
    + eapply Hput; [|exact Hr']. apply Hinv in Hr as (H1 & H2 & H3).
      split_and!; simpl; [| |done].
      * intros k [Hne Hk]%list_elem_of_filter.
        rewrite get_delete_ne by done. by apply H1.
      * intros k p. destruct (decide (sid = k)) as [->|Hne].
        -- by rewrite get_delete_eq.
        -- rewrite get_delete_ne by done. intros Hg Hb.
           apply list_elem_of_filter. split; [done | by eapply H2].
Qed.

(** In every state the server can reach, in every room: each entry of
    [buzzOrder] is a key of [players]; a contestant whose [buzzTime] is set
    is listed in [buzzOrder]; and an active room has a [roundStartTime]. *)
Lemma reachable_room_ok st :
  reachable st -> forall rc room, rooms st !! rc = Some room -> room_ok room.
Proof.
  induction 1 as [|fuel st sid ev st' out _ IH Hstep].
  - intros rc room. simpl. by rewrite lookup_empty.
  - by eapply room_ok_step.
Qed.

(** ** What holds as long as no contestant joins twice *)

Lemma get_Some_keys {V} (m : list (string * V)) k v :
  JsMap.get k m = Some v -> k ∈ JsMap.keys m.
Proof.
  induction m as [|[k0 v0] m IH]; simpl; [done|].
  destruct (decide (k0 = k)) as [->|Hk]; intros H.
  - apply list_elem_of_here.
  - apply list_elem_of_further. by apply IH.
Qed.

(** A room that satisfies [room_inv] has no more arrivals than
    contestants. *)
Lemma room_inv_length room :
  room_inv room -> length (buzzOrder room) <= JsMap.size (players room).
Proof.
  intros [Hnd Hiff]. unfold JsMap.size.
  rewrite <- (length_fmap fst (players room)).
  apply submseteq_length, NoDup_submseteq; [done|].
  intros k (p & Hp & _)%Hiff. by eapply get_Some_keys.
Qed.

Lemma room_inv_step fuel st sid ev st' out :
  (forall rc room, rooms st !! rc = Some room -> room_inv room) ->
  rejoins st sid ev = false ->
  step fuel st sid ev = Some (st', out) ->
  forall rc room, rooms st' !! rc = Some room -> room_inv room.
Proof.
  intros Hinv Hre Hstep rc room' Hr'.
  assert (forall k r, room_inv r -> <[k := r]> (rooms st) !! rc = Some room' ->
                      room_inv room') as Hput.
  { intros k r Hok Hl. split_lookup Hl; simplify_eq; eauto. }
  assert (forall r ps, buzzOrder r = [] ->
            players r = JsMap.forEach clearBuzz ps -> room_inv r) as Hclear.
  { intros r ps Hb Hp. split; rewrite Hb; [constructor|]. intros k. split.
    - by intros ?%not_elem_of_nil.
    - intros (p & Hg & Hs). rewrite Hp, get_forEach in Hg.
      destruct (JsMap.get k ps); simplify_eq/=. by destruct Hs as [? [=]]. }
  destruct ev; simpl in Hstep, Hre.
  - unfold createRoom in Hstep.
    destruct (retryCode _ _ _ _ _) as [c0|]; simplify_eq. simpl in Hr'.
    eapply Hput; [|exact Hr']. split; simpl; [constructor|].
    intros k. split; [by intros ?%not_elem_of_nil | by intros (? & [=] & ?)].
  - unfold joinAsHost in Hstep.
    destruct (rooms st !! toUpperCase roomCode) as [room|] eqn:Hr;
      simplify_eq; simpl in *; [|eauto].
    eapply Hput; [|exact Hr']. apply Hinv in Hr. exact Hr.
  - unfold joinRoom in Hstep.
    destruct (rooms st !! toUpperCase roomCode) as [room|] eqn:Hr;
      simplify_eq; simpl in *; [|eauto].
    bool_hyps.
    eapply Hput; [|exact Hr']. apply Hinv in Hr as [Hnd Hiff].
    split; simpl; [done|]. intros k.
    destruct (decide (sid = k)) as [->|Hne].
    + rewrite get_set_eq. split; [done|].
      intros (p & [= <-] & Hb). by destruct Hb.
    + rewrite get_set_ne by done. apply Hiff.
  - unfold startRound in Hstep.
    destruct (hostRoom st sid) as [[rc0 room]|] eqn:E; simplify_eq;
      simpl in *; [|eauto].
    eapply Hput; [|exact Hr']. by apply (Hclear _ (players room)).
  - unfold stopRound in Hstep.
    destruct (hostRoom st sid) as [[rc0 room]|] eqn:E; simplify_eq;
      simpl in *; [|eauto].
    apply hostRoom_Some in E as (_ & _ & Hr & _).
    eapply Hput; [|exact Hr']. apply Hinv in Hr. exact Hr.
  - unfold resetRound in Hstep.
    destruct (hostRoom st sid) as [[rc0 room]|] eqn:E; simplify_eq;
      simpl in *; [|eauto].
    eapply Hput; [|exact Hr']. by apply (Hclear _ (players room)).
  - unfold pressBuzzer in Hstep.
    destruct (playerToRoom st !! sid) as [rc0|]; [|simplify_eq; eauto].
    destruct (bool_decide (rc0 = "")); [simplify_eq; eauto|].
    destruct (rooms st !! rc0) as [room|] eqn:Hr; [|simplify_eq; eauto].
    destruct (negb (isActive room) || noStart (roundStartTime room));
      [simplify_eq; eauto|].
    destruct (JsMap.get sid (players room)) as [player|] eqn:Hp;
      [|simplify_eq; eauto].
    destruct (roundStartTime room) as [start|]; [|simplify_eq; eauto].
    destruct (buzzTime player) eqn:Hbt; simplify_eq; [eauto|]. simpl in Hr'.
    eapply Hput; [|exact Hr']. apply Hinv in Hr as [Hnd Hiff].
    assert (sid ∉ buzzOrder room) as Hnew.
    { intros (p & Hp' & Hb)%Hiff. simplify_eq. rewrite Hbt in Hb.
      by destruct Hb. }
    split; simpl.
    + apply NoDup_app. split; [done|]. split; [|apply NoDup_singleton].
      intros k Hk ->%list_elem_of_singleton. done.
    + intros k. rewrite elem_of_app, list_elem_of_singleton.
      destruct (decide (sid = k)) as [->|Hne].
      * rewrite get_set_eq. split; [|by right]. intros _. by eexists.
      * rewrite get_set_ne by done. rewrite Hiff. split; [|by left].
        intros [H|H]; [done | congruence].
  - unfold onGetRoomState in Hstep. repeat case_match; simplify_eq; eauto.
  - unfold disconnect in Hstep.
    destruct (playerToRoom st !! sid) as [rc0|]; [|simplify_eq; eauto].
    destruct (bool_decide (rc0 = "")); [simplify_eq; eauto|].
    destruct (rooms st !! rc0) as [room|] eqn:Hr; [|simplify_eq; eauto].
    destruct (bool_decide (hostId room = sid)); simplify_eq; simpl in Hr'.
    + split_lookup Hr'; [done | eauto].
    + eapply Hput; [|exact Hr']. apply Hinv in Hr as [Hnd Hiff].
      split; simpl; [by apply NoDup_filter|]. intros k.
      rewrite list_elem_of_filter.
      destruct (decide (sid = k)) as [->|Hne].
      * rewrite get_delete_eq. split; [by intros [? _] | by intros (? & ? & _)].
      * rewrite get_delete_ne by done. rewrite Hiff. split; [tauto|].
        intros H. split; [congruence | done].
Qed.

(** Along a run from the empty server in which no connection sends
    [joinRoom] for a room whose [buzzOrder] lists it, what C2 and C3 say
    holds of every room: no duplicate in [buzzOrder], a connection is listed
    exactly when it is a contestant with a [buzzTime], and [buzzOrder] is no
    longer than the room has contestants. *)
Lemma invariants_without_rejoin fuel evs : forall st st' out,
  (forall rc room, rooms st !! rc = Some room -> room_inv room) ->
  noRejoin fuel st evs = true ->
  run fuel st evs = Some (st', out) ->
  forall rc room,
    rooms st' !! rc = Some room ->
    room_inv room /\ length (buzzOrder room) <= JsMap.size (players room).
Proof.
  induction evs as [|[sid ev] evs IH]; intros st st' out Hinv Hno Hrun;
    simpl in *.
  - simplify_eq. intros rc room Hr. split; [eauto | apply room_inv_length; eauto].
  - apply andb_true_iff in Hno as [Hre Hno]. apply negb_true_iff in Hre.
    destruct (step fuel st sid ev) as [[st1 out1]|] eqn:Hstep; [|done].
    destruct (run fuel st1 evs) as [[st2 out2]|] eqn:Hrest; [|done].
    simplify_eq. eapply IH; [|exact Hno|exact Hrest].
    by eapply room_inv_step.
Qed.

Example quiz_run_has_no_rejoin : noRejoin 0 initial quiz_run = true.
Proof. vm_compute. reflexivity. Qed.

Example rejoin_run_has_rejoin : noRejoin 0 initial rejoin_run = false.
Proof. vm_compute. reflexivity. Qed.

(** ** Ranks within one round (pressBuzzer, disconnect) *)

Lemma ranks_app rc out1 out2 :
  ranks rc (out1 ++ out2) = ranks rc out1 ++ ranks rc out2.
Proof. apply omap_app. Qed.

(** One event that does not end the round of [rc]: the room is still there,
    its [buzzOrder] grew at the end by what was accepted, and the ranks
    announced are the new lengths. *)
Lemma step_within_round fuel rc st sid ev st1 out1 room :
  rooms st !! rc = Some room ->
  endsRound rc st sid ev = false ->
  step fuel st sid ev = Some (st1, out1) ->
  exists room1 new,
    rooms st1 !! rc = Some room1 /\
    buzzOrder room1 = buzzOrder room ++ new /\
    ranks rc out1 = seq (S (length (buzzOrder room))) (length new).
Proof.
  intros Hr He Hstep.
  assert (forall k r', (k = rc -> buzzOrder r' = buzzOrder room) ->
            exists room1 new,
              <[k := r']> (rooms st) !! rc = Some room1 /\
              buzzOrder room1 = buzzOrder room ++ new /\
              @nil nat = seq (S (length (buzzOrder room))) (length new)) as Hsame.
  { intros k r' Hk. destruct (decide (k = rc)) as [->|Hne].
    - exists r', []. rewrite lookup_insert_eq, app_nil_r. by rewrite Hk.
    - exists room, []. rewrite lookup_insert_ne, app_nil_r by done. done. }
  assert (exists room1 new,
              rooms st !! rc = Some room1 /\
              buzzOrder room1 = buzzOrder room ++ new /\
              @nil nat = seq (S (length (buzzOrder room))) (length new)) as Hid.
  { exists room, []. by rewrite app_nil_r. }
  destruct ev; simpl in Hstep, He.
  - unfold createRoom in Hstep.
    destruct (retryCode _ _ _ _ _) as [c0|] eqn:E; [|done].
    apply retryCode_fresh in E. simplify_eq. simpl.
    apply Hsame. intros ?. congruence.
  - unfold joinAsHost in Hstep. case_match; simplify_eq; simpl; [|done].
    apply Hsame. intros ?. by simplify_eq.
  - unfold joinRoom in Hstep. case_match; simplify_eq; simpl; [|done].
    apply Hsame. intros ?. by simplify_eq.
  - unfold startRound in Hstep.
    destruct (hostRoom st sid) as [[rc' room']|] eqn:E; simplify_eq; simpl;
      [|done].
    apply Hsame. intros ?. by rewrite bool_decide_eq_true_2 in He.
  - unfold stopRound in Hstep.
    destruct (hostRoom st sid) as [[rc' room']|] eqn:E; simplify_eq; simpl;
      [|done].
    apply hostRoom_Some in E as (? & ? & ? & ?).
    apply Hsame. intros ?. by simplify_eq.
  - unfold resetRound in Hstep.
    destruct (hostRoom st sid) as [[rc' room']|] eqn:E; simplify_eq; simpl;
      [|done].
    apply Hsame. intros ?. by rewrite bool_decide_eq_true_2 in He.
  - unfold pressBuzzer in Hstep.
    destruct (playerToRoom st !! sid) as [rc'|] eqn:Hb; [|by simplify_eq].
    destruct (bool_decide (rc' = "")); [by simplify_eq|].
    destruct (rooms st !! rc') as [room'|] eqn:Hr'; [|by simplify_eq].
    destruct (negb (isActive room') || noStart (roundStartTime room'));
      [by simplify_eq|].
    destruct (JsMap.get sid (players room')) as [player|]; [|by simplify_eq].
    destruct (roundStartTime room') as [start|]; [|by simplify_eq].
    destruct (buzzTime player); simplify_eq; [done|]. simpl.
    destruct (decide (rc' = rc)) as [->|Hne].
    + simplify_eq. do 2 eexists. rewrite lookup_insert_eq.
      split; [reflexivity|]. simpl. split; [reflexivity|].
      rewrite length_app. simpl. f_equal. lia.
    + by apply Hsame.
  - unfold onGetRoomState in Hstep. repeat case_match; by simplify_eq.
  - unfold disconnect in Hstep.
    destruct (playerToRoom st !! sid) as [rc'|] eqn:Hb; [|by simplify_eq].
    destruct (bool_decide (rc' = "")); [by simplify_eq|].
    destruct (rooms st !! rc') as [room'|] eqn:Hr'; [|by simplify_eq].
    rewrite Hr in He.
    destruct (bool_decide (hostId room' = sid)) eqn:Hh; simplify_eq; simpl.
    + exists room, []. rewrite app_nil_r. split; [|done].
      rewrite lookup_delete_ne; [done|]. intros ->. simplify_eq.
      by rewrite bool_decide_eq_true_2, Hh in He.
    + apply Hsame. intros ->. simplify_eq. simpl.
      rewrite bool_decide_eq_true_2, Hh in He by done. simpl in He.
      bool_hyps. by apply filter_ne_absent.
Qed.

Lemma run_within_round fuel rc evs : forall st st' out room,
  rooms st !! rc = Some room ->
  sameRound fuel rc st evs = true ->
  run fuel st evs = Some (st', out) ->
  exists room' new,
    rooms st' !! rc = Some room' /\
    buzzOrder room' = buzzOrder room ++ new /\
    ranks rc out = seq (S (length (buzzOrder room))) (length new).
Proof.
  induction evs as [|[sid ev] evs IH]; intros st st' out room Hr Hs Hrun;
    simpl in *.
  - simplify_eq. exists room, []. by rewrite app_nil_r.
  - apply andb_true_iff in Hs as [He Hs]. apply negb_true_iff in He.
    destruct (step fuel st sid ev) as [[st1 out1]|] eqn:Hstep; [|done].
    destruct (run fuel st1 evs) as [[st2 out2]|] eqn:Hrest; [|done].
    simplify_eq.
    destruct (step_within_round _ _ _ _ _ _ _ _ Hr He Hstep)
      as (room1 & new1 & Hr1 & Hb1 & Hk1).
    destruct (IH _ _ _ _ Hr1 Hs Hrest) as (room2 & new2 & Hr2 & Hb2 & Hk2).
    exists room2, (new1 ++ new2). split; [done|].
    split; [by rewrite Hb2, Hb1, app_assoc|].
    by rewrite ranks_app, Hk1, Hk2, Hb1, !length_app, seq_app.
Qed.

(** C1 (amended). The rank announced for an accepted signal is the length
    of [buzzOrder] right after the append.  Over any run of events that
    does not end the round of the room (no [startRound] or [resetRound] of
    its bound host, no loss of its host, no loss of a connection that holds
    a place in [buzzOrder]), [buzzOrder] only grows at its end, so a place
    once granted is kept, and the ranks announced are consecutive from the
    length at the start of the run: in a round that starts empty the N-th
    accepted signal gets rank N, and no rank repeats or regresses. *)
Theorem ranks_count_up_within_round fuel rc st evs st' out room :
  rooms st !! rc = Some room ->
  sameRound fuel rc st evs = true ->
  run fuel st evs = Some (st', out) ->
  exists room' new,
    rooms st' !! rc = Some room' /\
    buzzOrder room' = buzzOrder room ++ new /\
    ranks rc out = seq (S (length (buzzOrder room))) (length new) /\
    (forall i sid, buzzOrder room !! i = Some sid ->
                   buzzOrder room' !! i = Some sid) /\
    (forall n k, ranks rc out !! n = Some k ->
                 k = length (buzzOrder room ++ take (S n) new) /\
                 k = length (buzzOrder room) + n + 1) /\
    (buzzOrder room = [] ->
     forall n k, ranks rc out !! n = Some k -> k = S n) /\
    NoDup (ranks rc out).
Proof.
  intros Hr Hs Hrun.
  destruct (run_within_round _ _ _ _ _ _ _ Hr Hs Hrun)
    as (room' & new & Hr' & Hb & Hk).
  exists room', new. split_and!; try done.
  - intros i sid Hi. rewrite Hb. by apply lookup_app_l_Some.
  - intros n k. rewrite Hk. intros [-> Hn]%lookup_seq.
    rewrite length_app, length_take. lia.
  - intros He n k. rewrite Hk, He. intros [-> _]%lookup_seq. simpl. lia.
  - rewrite Hk. apply NoDup_seq.
Qed.

(** The theorem on [late_run] from [quiz], where [p] holds rank 1: the
    accepted signals of [q] and [x] get ranks 2 and 3. *)
Lemma ranks_count_up_within_round_witness :
  sameRound 0 "AAAAAA" quiz late_run = true /\
  exists st' out room' new,
    run 0 quiz late_run = Some (st', out) /\
    rooms st' !! "AAAAAA" = Some room' /\
    buzzOrder room' = buzzOrder quiz_room ++ new /\
    ranks "AAAAAA" out = seq (S (length (buzzOrder quiz_room))) (length new) /\
    (forall i sid, buzzOrder quiz_room !! i = Some sid ->
                   buzzOrder room' !! i = Some sid) /\
    (forall n k, ranks "AAAAAA" out !! n = Some k ->
                 k = length (buzzOrder quiz_room ++ take (S n) new) /\
                 k = length (buzzOrder quiz_room) + n + 1) /\
    (buzzOrder quiz_room = [] ->
     forall n k, ranks "AAAAAA" out !! n = Some k -> k = S n) /\
    NoDup (ranks "AAAAAA" out).
Proof.
  split; [vm_compute; reflexivity|].
  assert (exists st' out, run 0 quiz late_run = Some (st', out))
    as (st' & out & Hrun) by (do 2 eexists; vm_compute; reflexivity).
  exists st', out.
  destruct (ranks_count_up_within_round 0 "AAAAAA" quiz late_run st' out
              quiz_room) as (room' & new & H);
    [vm_compute; reflexivity | vm_compute; reflexivity | exact Hrun |].
  exists room', new. split; [exact Hrun | exact H].
Defined.

(** C1, as stated, fails: in [departure_run] the three accepted signals are
    given ranks 1, 2 and 2.  The third accepted signal has rank 2, which
    repeats the rank of [b]; and [b], granted position 2, stands at
    position 1 once [a] has left. *)
Lemma third_signal_repeats_rank_two :
  exists st out,
    run 0 initial departure_run = Some (st, out) /\
    ranks "AAAAAA" out = [1; 2; 2] /\
    ranks "AAAAAA" out !! 2 ≠ Some 3 /\
    ¬ NoDup (ranks "AAAAAA" out) /\
    (buzzOrder <$> rooms st !! "AAAAAA") = Some ["b"; "c"].
Proof.
  do 2 eexists. split; [vm_compute; reflexivity|].
  split; [vm_compute; reflexivity|].
  split; [vm_compute; congruence|].
  split; [|vm_compute; reflexivity].
  vm_compute. intros Hnd. apply NoDup_cons in Hnd as [_ Hnd].
  apply NoDup_cons in Hnd as [Hnd _]. apply Hnd. constructor.
Qed.

(** ** A second joinRoom on the same connection *)

(** C3 on the code: after [rejoin_run] contestant [p] is still listed in
    [buzzOrder] while its [buzzTime] is [null] again: the second [joinRoom]
    stored a fresh player record and left [buzzOrder] alone. *)
Lemma rejoin_clears_buzzTime_but_not_buzzOrder :
  exists st room player,
    fst <$> run 0 initial rejoin_run = Some st /\
    rooms st !! "AAAAAA" = Some room /\
    JsMap.get "p" (players room) = Some player /\
    buzzTime player = None /\
    "p" ∈ buzzOrder room.
Proof.
  do 3 eexists. split; [vm_compute; reflexivity|].
  split; [vm_compute; reflexivity|]. split; [vm_compute; reflexivity|].
  split; [reflexivity|]. constructor.
Qed.

(** C2 on the code: a signal after [rejoin_run] is accepted a second time:
    [buzzOrder] is [p; p], a duplicate, and it is longer than the room has
    contestants. *)
Lemma rejoin_then_signal_duplicates_arrival :
  exists st room,
    fst <$> run 0 initial (rejoin_run ++ [("p", PressBuzzer 120)]) = Some st /\
    rooms st !! "AAAAAA" = Some room /\
    buzzOrder room = ["p"; "p"] /\
    ¬ NoDup (buzzOrder room) /\
    JsMap.size (players room) = 1 /\
    ¬ length (buzzOrder room) <= JsMap.size (players room).
Proof.
  do 2 eexists. split; [vm_compute; reflexivity|].
  split; [vm_compute; reflexivity|]. split; [reflexivity|].
  split; [|split; [reflexivity | simpl; lia]].
  simpl. intros Hnd. apply NoDup_cons in Hnd as [Hnd _]. apply Hnd.
  constructor.
Qed.

(** ** Repeated signal (pressBuzzer) *)

(** C4. A signal from a contestant whose [buzzTime] is already set is
    dropped in silence: the handler returns the server state it was given,
    unchanged in every room and binding, and emits nothing, so there is no
    error event and no second [buzzerPressed] rank. *)
Theorem pressBuzzer_repeat_is_discarded st sid now rc room player t :
  playerToRoom st !! sid = Some rc ->
  rooms st !! rc = Some room ->
  JsMap.get sid (players room) = Some player ->
  buzzTime player = Some t ->
  pressBuzzer st sid now = (st, []).
Proof.
  intros Hb Hr Hp Ht. unfold pressBuzzer. rewrite Hb, Hr, Hp, Ht.
  by repeat case_match.
Qed.

(** In [quiz] contestant [p] has signalled at 110; its signal at 120 is
    dropped. *)
Lemma pressBuzzer_repeat_is_discarded_witness :
  JsMap.get "p" (players quiz_room) = Some (mkPlayer "p" "Mona" (Some 10%Z)) /\
  pressBuzzer quiz "p" 120 = (quiz, []).
Proof.
  split; [reflexivity|].
  apply (pressBuzzer_repeat_is_discarded quiz "p" 120 "AAAAAA" quiz_room
           (mkPlayer "p" "Mona" (Some 10%Z)) 10);
    vm_compute; reflexivity.
Defined.

(** ** Round state machine (startRound, stopRound, resetRound) *)

(** C5. A [startRound] of the bound host stores a room with an empty
    [buzzOrder], every contestant's [buzzTime] cleared (same contestants,
    same order, same names), [roundStartTime] at the current instant and
    status [Active], whatever the previous round left behind. *)
Theorem startRound_begins_fresh_round st sid now rc room :
  playerToRoom st !! sid = Some rc -> rc ≠ "" ->
  rooms st !! rc = Some room -> hostId room = sid ->
  exists room',
    startRound st sid now =
      ({| rooms := <[rc := room']> (rooms st);
          playerToRoom := playerToRoom st |},
       [(ToRoom rc, roundStarted now);
        (ToRoom rc, roomState (getRoomState room'))]) /\
    buzzOrder room' = [] /\
    (forall k p, JsMap.get k (players room') = Some p -> buzzTime p = None) /\
    JsMap.keys (players room') = JsMap.keys (players room) /\
    (forall k, JsMap.get k (players room') =
               clearBuzz <$> JsMap.get k (players room)) /\
    roundStartTime room' = Some now /\
    isActive room' = true /\
    status room' = Active /\
    hostId room' = hostId room /\ code room' = code room.
Proof.
  intros Hb Hne Hr Hh.
  assert (hostRoom st sid = Some (rc, room)) as E by by apply hostRoom_Some.
  eexists. unfold startRound. rewrite E. split; [reflexivity|]. simpl.
  split_and!; try done.
  - intros k p. rewrite get_forEach.
    destruct (JsMap.get k (players room)); simpl; [|done].
    by intros [= <-].
  - apply keys_forEach.
  - intros k. apply get_forEach.
Qed.

(** Host [h] starts a new round of [quiz] at time 200. *)
Lemma startRound_begins_fresh_round_witness :
  exists room',
    startRound quiz "h" 200 =
      ({| rooms := <["AAAAAA" := room']> (rooms quiz);
          playerToRoom := playerToRoom quiz |},
       [(ToRoom "AAAAAA", roundStarted 200);
        (ToRoom "AAAAAA", roomState (getRoomState room'))]) /\
    buzzOrder room' = [] /\
    (forall k p, JsMap.get k (players room') = Some p -> buzzTime p = None) /\
    JsMap.keys (players room') = JsMap.keys (players quiz_room) /\
    (forall k, JsMap.get k (players room') =
               clearBuzz <$> JsMap.get k (players quiz_room)) /\
    roundStartTime room' = Some 200%Z /\
    isActive room' = true /\
    status room' = Active /\
    hostId room' = hostId quiz_room /\ code room' = code quiz_room.
Proof.
  apply (startRound_begins_fresh_round quiz "h" 200 "AAAAAA" quiz_room);
    [vm_compute; reflexivity | discriminate | vm_compute; reflexivity
    | reflexivity].
Defined.

(** A recorded round start is cleared by no handler but [resetRound], run by
    the room's bound host. *)
Lemma roundStartTime_cleared_by_reset fuel st sid ev st' out c r r' t :
  step fuel st sid ev = Some (st', out) ->
  rooms st !! c = Some r -> roundStartTime r = Some t ->
  rooms st' !! c = Some r' -> roundStartTime r' = None ->
  ev = ResetRound /\ hostRoom st sid = Some (c, r).
Proof.
  intros Hstep Hr Ht Hr' Hn.
  destruct ev; simpl in Hstep.
  - unfold createRoom in Hstep.
    destruct (retryCode _ _ _ _ _) as [c0|] eqn:E; [|done].
    apply retryCode_fresh in E. simplify_eq. simpl in Hr'.
    split_lookup Hr'; congruence.
  - unfold joinAsHost in Hstep. repeat case_match; simplify_eq; simpl in *;
      try split_lookup Hr'; simplify_eq; simpl in *; congruence.
  - unfold joinRoom in Hstep. repeat case_match; simplify_eq; simpl in *;
      try split_lookup Hr'; simplify_eq; simpl in *; congruence.
  - unfold startRound in Hstep.
    destruct (hostRoom st sid) as [[rc room]|] eqn:E; simplify_eq; simpl in *;
      try split_lookup Hr'; simplify_eq; simpl in *; congruence.
  - unfold stopRound in Hstep.
    destruct (hostRoom st sid) as [[rc room]|] eqn:E; simplify_eq; simpl in *;
      try congruence.
    apply hostRoom_Some in E as (? & ? & ? & ?).
    split_lookup Hr'; simplify_eq; simpl in *; congruence.
  - split; [done|]. unfold resetRound in Hstep.
    destruct (hostRoom st sid) as [[rc room]|] eqn:E; simplify_eq; simpl in *;
      try congruence.
    pose proof E as (? & ? & ? & ?)%hostRoom_Some.
    split_lookup Hr'; simplify_eq; simpl in *; first [done | congruence].
  - unfold pressBuzzer in Hstep. repeat case_match; simplify_eq; simpl in *;
      try split_lookup Hr'; simplify_eq; simpl in *; congruence.
  - unfold onGetRoomState in Hstep. repeat case_match; simplify_eq; congruence.
  - unfold disconnect in Hstep. repeat case_match; simplify_eq; simpl in *;
      try split_lookup Hr'; simplify_eq; simpl in *; congruence.
Qed.

(** C6. A [stopRound] of the bound host on an active room stores the same
    room with [isActive] false and nothing else changed: contestants, their
    [buzzTime]s, [buzzOrder], host and [roundStartTime] are the ones before,
    the status is [Stopped], other rooms and all bindings are untouched; and
    from there on a step that leaves the room with no [roundStartTime] is a
    [resetRound] of the room's bound host. *)
Theorem stopRound_only_halts st sid rc room t :
  playerToRoom st !! sid = Some rc -> rc ≠ "" ->
  rooms st !! rc = Some room -> hostId room = sid ->
  isActive room = true -> roundStartTime room = Some t ->
  exists room',
    stopRound st sid =
      ({| rooms := <[rc := room']> (rooms st);
          playerToRoom := playerToRoom st |},
       [(ToRoom rc, roundStopped);
        (ToRoom rc, roomState (getRoomState room'))]) /\
    room' = {| roomId := roomId room; code := code room;
               hostId := hostId room; players := players room;
               isActive := false; roundStartTime := Some t;
               buzzOrder := buzzOrder room |} /\
    status room = Active /\ status room' = Stopped /\
    (forall fuel sid' ev st2 out2 room2,
        step fuel (fst (stopRound st sid)) sid' ev = Some (st2, out2) ->
        rooms st2 !! rc = Some room2 -> roundStartTime room2 = None ->
        ev = ResetRound /\ hostRoom (fst (stopRound st sid)) sid' = Some (rc, room')).
Proof.
  intros Hb Hne Hr Hh Ha Ht.
  assert (hostRoom st sid = Some (rc, room)) as E by by apply hostRoom_Some.
  eexists. unfold stopRound. rewrite E. split; [reflexivity|].
  split; [by rewrite Ht|].
  split; [unfold status; by rewrite Ha|].
  split; [unfold status; simpl; by rewrite Ht|].
  intros fuel sid' ev st2 out2 room2 Hstep Hr2 Hn. simpl in Hstep.
  eapply roundStartTime_cleared_by_reset; [exact Hstep| |exact Ht|exact Hr2|exact Hn].
  simpl. by rewrite lookup_insert_eq.
Qed.

(** Host [h] stops the active round of [quiz]. *)
Lemma stopRound_only_halts_witness :
  exists room',
    stopRound quiz "h" =
      ({| rooms := <["AAAAAA" := room']> (rooms quiz);
          playerToRoom := playerToRoom quiz |},
       [(ToRoom "AAAAAA", roundStopped);
        (ToRoom "AAAAAA", roomState (getRoomState room'))]) /\
    room' = {| roomId := roomId quiz_room; code := code quiz_room;
               hostId := hostId quiz_room; players := players quiz_room;
               isActive := false; roundStartTime := Some 100%Z;
               buzzOrder := buzzOrder quiz_room |} /\
    status quiz_room = Active /\ status room' = Stopped /\
    (forall fuel sid' ev st2 out2 room2,
        step fuel (fst (stopRound quiz "h")) sid' ev = Some (st2, out2) ->
        rooms st2 !! "AAAAAA" = Some room2 -> roundStartTime room2 = None ->
        ev = ResetRound /\
        hostRoom (fst (stopRound quiz "h")) sid' = Some ("AAAAAA", room')).
Proof.
  apply (stopRound_only_halts quiz "h" "AAAAAA" quiz_room 100);
    [vm_compute; reflexivity | discriminate | vm_compute; reflexivity
    | reflexivity | reflexivity | reflexivity].
Defined.

(** ** Display names (joinRoom and the join forms) *)

Lemma trimStart_length s : String.length (trimStart s) <= String.length s.
Proof.
  induction s as [|c s IH]; simpl; [done|].
  destruct (is_space c); simpl; lia.
Qed.

Lemma trimEnd_length s : String.length (trimEnd s) <= String.length s.
Proof.
  induction s as [|c s IH]; simpl; [done|].
  destruct (trimEnd s) eqn:E; simpl in *.
  - destruct (is_space c); simpl; lia.
  - lia.
Qed.

Lemma trim_length s : String.length (trim s) <= String.length s.
Proof.
  unfold trim. etrans; [apply trimEnd_length | apply trimStart_length].
Qed.

Lemma length_nonempty s : s ≠ "" -> 1 <= String.length s.
Proof. destruct s; simpl; [done | lia]. Qed.

(** C7 (amended). The [joinRoom] handler does not look at the display
    name.  Against an existing room it stores the contestant under the very
    name it received, whatever its content or length, and emits the join
    confirmation, the [playerJoined] event and the snapshot, no error; its
    only rejection is "Room not found", which changes nothing.  The check of
    the name is the client forms': [handleJoin] and [handleJoinRoom] show an
    error and send nothing when the name is empty after trimming, and
    otherwise send the trimmed name, which has at least one character and at
    most as many as were typed (at most 20 from a field that holds 20). *)
Theorem joinRoom_takes_any_name st sid roomCode playerName :
  match rooms st !! toUpperCase roomCode with
  | Some room =>
      exists st' room',
        joinRoom st sid roomCode playerName =
          (st', [(ToSocket sid, roomJoined (code room) playerName);
                 (ToRoom (code room),
                  playerJoined (mkPlayer sid playerName None));
                 (ToRoom (code room), roomState (getRoomState room'))]) /\
        rooms st' !! toUpperCase roomCode = Some room' /\
        JsMap.get sid (players room') = Some (mkPlayer sid playerName None)
  | None =>
      joinRoom st sid roomCode playerName =
        (st, [(ToSocket sid, error "Room not found")])
  end /\
  (trim playerName = "" ->
     handleJoin roomCode playerName = setError "Please enter your name" /\
     handleJoinRoom roomCode playerName =
       setError "Please enter both room code and your name") /\
  (forall form ev,
     form = handleJoin \/ form = handleJoinRoom ->
     form roomCode playerName = emit ev ->
     ev = JoinRoom (toUpperCase roomCode) (trim playerName) /\
     1 <= String.length (trim playerName) <= String.length playerName /\
     (String.length playerName <= maxLength ->
      String.length (trim playerName) <= maxLength)).
Proof.
  split_and!.
  - unfold joinRoom. destruct (rooms st !! toUpperCase roomCode) as [room|];
      [|done].
    do 2 eexists. split; [reflexivity|]. simpl.
    split; [by rewrite lookup_insert_eq | apply get_set_eq].
  - intros Ht. unfold handleJoin, handleJoinRoom.
    rewrite (bool_decide_eq_true_2 _ Ht). by rewrite orb_true_r.
  - intros form ev Hf He.
    assert (trim playerName ≠ "" /\
            ev = JoinRoom (toUpperCase roomCode) (trim playerName)) as [Hne ->].
    { destruct Hf as [-> | ->]; unfold handleJoin, handleJoinRoom in He;
        repeat case_match; simplify_eq; bool_hyps.
      - done.
      - match goal with
        | H : _ || _ = false |- _ => apply orb_false_elim in H as [_ H]
        end.
        by bool_hyps. }
    pose proof (trim_length playerName). pose proof (length_nonempty _ Hne).
    split; [done|]. split; lia.
Qed.

(** C7, as stated, fails: a name of three spaces, empty after trimming, and
    a name of 21 characters are both accepted by [joinRoom]; the contestant
    is added under that name and no error is emitted. *)
Lemma joinRoom_accepts_blank_and_long_names :
  exists st,
    fst <$> run 0 initial [("h", CreateRoom zeros)] = Some st /\
    trim "   " = "" /\
    (let r := joinRoom st "p" "AAAAAA" "   " in
     (players <$> rooms (fst r) !! "AAAAAA") =
       Some [("p", mkPlayer "p" "   " None)] /\
     fst <$> snd r = [ToSocket "p"; ToRoom "AAAAAA"; ToRoom "AAAAAA"] /\
     snd r !! 0 = Some (ToSocket "p", roomJoined "AAAAAA" "   ")) /\
    (let r := joinRoom st "p" "AAAAAA" "abcdefghijklmnopqrstu" in
     (players <$> rooms (fst r) !! "AAAAAA") =
       Some [("p", mkPlayer "p" "abcdefghijklmnopqrstu" None)] /\
     String.length (trim "abcdefghijklmnopqrstu") = 21 /\
     snd r !! 0 =
       Some (ToSocket "p", roomJoined "AAAAAA" "abcdefghijklmnopqrstu")).
Proof.
  eexists. split; [vm_compute; reflexivity|]. by vm_compute.
Qed.

(** ** Loss of a connection (disconnect) *)

(** C8 (amended). When a connection is lost that is the host of a room
    ([hostId]) and is bound to that room, the room is deleted from [rooms],
    so that a later [joinRoom] or [joinAsHost] with its code, in any letter
    case, answers "Room not found" and changes nothing; the host's own
    binding is deleted from [playerToRoom].  The bindings of the other
    connections are kept as they were: a command sent through a binding to
    the deleted room finds no room and is dropped.  When the connection is
    not bound to the room any more (it has since created or joined another
    room), its loss does not remove the room it still is host of: the room
    stays in [rooms] as it was. *)
Theorem host_disconnect_closes_room st sid rc room :
  rooms st !! rc = Some room -> hostId room = sid ->
  exists st' out,
    disconnect st sid = (st', out) /\
    (playerToRoom st !! sid = Some rc -> rc ≠ "" ->
     out = [(ToRoom rc, error "Host left the room")] /\
     rooms st' = delete rc (rooms st) /\
     rooms st' !! rc = None /\
     (forall sid' roomCode nm,
         toUpperCase roomCode = rc ->
         joinRoom st' sid' roomCode nm =
           (st', [(ToSocket sid', error "Room not found")]) /\
         joinAsHost st' sid' roomCode =
           (st', [(ToSocket sid', error "Room not found")])) /\
     playerToRoom st' = delete sid (playerToRoom st) /\
     playerToRoom st' !! sid = None /\
     (forall sid', sid' ≠ sid ->
         playerToRoom st' !! sid' = playerToRoom st !! sid') /\
     (forall sid', playerToRoom st' !! sid' = Some rc ->
         (forall now, startRound st' sid' now = (st', [])) /\
         stopRound st' sid' = (st', []) /\
         resetRound st' sid' = (st', []) /\
         (forall now, pressBuzzer st' sid' now = (st', [])) /\
         onGetRoomState st' sid' = (st', []) /\
         disconnect st' sid' = (st', []))) /\
    (playerToRoom st !! sid ≠ Some rc \/ rc = "" ->
     rooms st' !! rc = Some room).
Proof.
  intros Hr Hh. do 2 eexists. split; [apply surjective_pairing|]. split.
  - intros Hb Hne.
    assert (disconnect st sid =
            ({| rooms := delete rc (rooms st);
                playerToRoom := delete sid (playerToRoom st) |},
             [(ToRoom rc, error "Host left the room")])) as ->.
    { unfold disconnect.
      by rewrite Hb, Hr, bool_decide_eq_false_2, bool_decide_eq_true_2. }
    simpl. split_and!.
    + done.
    + done.
    + apply lookup_delete_eq.
    + intros sid' roomCode nm Hu. unfold joinRoom, joinAsHost. simpl.
      by rewrite Hu, lookup_delete_eq.
    + done.
    + apply lookup_delete_eq.
    + intros sid' Hs. by rewrite lookup_delete_ne.
    + intros sid' Hs. apply (stale_binding_is_inert _ _ rc); [done|].
      simpl. apply lookup_delete_eq.
  - intros Hnb. unfold disconnect.
    destruct (playerToRoom st !! sid) as [rc0|] eqn:Hb; [|done].
    destruct (bool_decide (rc0 = "")) eqn:Hrc0; [done|]. bool_hyps.
    destruct (rooms st !! rc0) as [room0|] eqn:Hr0; [|done].
    assert (rc0 ≠ rc) as Hne.
    { intros ->. destruct Hnb as [Hnb | ->]; [by apply Hnb | done]. }
    destruct (bool_decide (hostId room0 = sid)); simpl.
    + by rewrite lookup_delete_ne.
    + by rewrite lookup_insert_ne.
Qed.

(** The connection of host [h] of [quiz], bound to its room, is lost. *)
Lemma host_disconnect_closes_room_witness :
  exists st' out,
    disconnect quiz "h" = (st', out) /\
    (playerToRoom quiz !! "h" = Some "AAAAAA" -> "AAAAAA" ≠ "" ->
     out = [(ToRoom "AAAAAA", error "Host left the room")] /\
     rooms st' = delete "AAAAAA" (rooms quiz) /\
     rooms st' !! "AAAAAA" = None /\
     (forall sid' roomCode nm,
         toUpperCase roomCode = "AAAAAA" ->
         joinRoom st' sid' roomCode nm =
           (st', [(ToSocket sid', error "Room not found")]) /\
         joinAsHost st' sid' roomCode =
           (st', [(ToSocket sid', error "Room not found")])) /\
     playerToRoom st' = delete "h" (playerToRoom quiz) /\
     playerToRoom st' !! "h" = None /\
     (forall sid', sid' ≠ "h" ->
         playerToRoom st' !! sid' = playerToRoom quiz !! sid') /\
     (forall sid', playerToRoom st' !! sid' = Some "AAAAAA" ->
         (forall now, startRound st' sid' now = (st', [])) /\
         stopRound st' sid' = (st', []) /\
         resetRound st' sid' = (st', []) /\
         (forall now, pressBuzzer st' sid' now = (st', [])) /\
         onGetRoomState st' sid' = (st', []) /\
         disconnect st' sid' = (st', []))) /\
    (playerToRoom quiz !! "h" ≠ Some "AAAAAA" \/ "AAAAAA" = "" ->
     rooms st' !! "AAAAAA" = Some quiz_room).
Proof.
  apply (host_disconnect_closes_room quiz "h" "AAAAAA" quiz_room);
    [vm_compute; reflexivity | reflexivity].
Defined.

(** Host [h] creates room AAAAAA and then room AAAAAB, which rebinds it;
    when [h] is lost only AAAAAB is deleted.  AAAAAA stays, with [h] as its
    [hostId], and a [joinRoom] for it still succeeds. *)
Example room_left_behind_outlives_its_host :
  exists st st',
    fst <$> run 0 initial
      [("h", CreateRoom zeros);
       ("h", CreateRoom (fun i => if decide (i = 5) then 1 else 0))] = Some st /\
    playerToRoom st !! "h" = Some "AAAAAB" /\
    (hostId <$> rooms st !! "AAAAAA") = Some "h" /\
    disconnect st "h" = (st', [(ToRoom "AAAAAB", error "Host left the room")]) /\
    rooms st' !! "AAAAAB" = None /\
    (hostId <$> rooms st' !! "AAAAAA") = Some "h" /\
    snd (joinRoom st' "p" "aaaaaa" "Mona") !! 0 =
      Some (ToSocket "p", roomJoined "AAAAAA" "Mona").
Proof.
  do 2 eexists. split; [vm_compute; reflexivity|].
  split; [vm_compute; reflexivity|]. split; [vm_compute; reflexivity|].
  split; [vm_compute; reflexivity|]. by vm_compute.
Qed.

(** C8, as stated, fails: when host [h] of the room of [quiz] is lost the
    room is deleted, but the bindings of contestants [p] and [q] stay in
    [playerToRoom]. *)
Lemma host_disconnect_keeps_contestant_bindings :
  rooms quiz !! "AAAAAA" = Some quiz_room /\
  hostId quiz_room = "h" /\
  playerToRoom quiz !! "h" = Some "AAAAAA" /\
  rooms (fst (disconnect quiz "h")) !! "AAAAAA" = None /\
  playerToRoom (fst (disconnect quiz "h")) !! "h" = None /\
  playerToRoom (fst (disconnect quiz "h")) !! "p" = Some "AAAAAA" /\
  playerToRoom (fst (disconnect quiz "h")) !! "q" = Some "AAAAAA".
Proof. by vm_compute. Qed.

(** C10. After [joinAsHost] has bound the room to connection [new], the
    loss of another connection [old] that is still bound to the room (the
    previous host) takes the contestant branch of [disconnect]: the room
    stays in [rooms] with host [new] and the same [isActive],
    [roundStartTime] and status; [old]'s own entry is deleted from [players]
    and filtered out of [buzzOrder], every other contestant is kept, and
    when [old] was no contestant both are exactly what they were. *)
Theorem previous_host_leaves_as_contestant st old new roomCode room :
  rooms st !! toUpperCase roomCode = Some room ->
  playerToRoom st !! old = Some (toUpperCase roomCode) ->
  toUpperCase roomCode ≠ "" ->
  old ≠ new ->
  exists st1 st2 room2,
    joinAsHost st new roomCode = (st1, [(ToSocket new, hostJoined (code room))]) /\
    disconnect st1 old =
      (st2, [(ToRoom (toUpperCase roomCode), playerLeft old);
             (ToRoom (toUpperCase roomCode), roomState (getRoomState room2))]) /\
    rooms st2 !! toUpperCase roomCode = Some room2 /\
    room2 = {| roomId := roomId room; code := code room; hostId := new;
               players := JsMap.delete old (players room);
               isActive := isActive room;
               roundStartTime := roundStartTime room;
               buzzOrder := filter (fun i => i ≠ old) (buzzOrder room) |} /\
    status room2 = status room /\
    (forall k, k ≠ old ->
        JsMap.get k (players room2) = JsMap.get k (players room)) /\
    (forall k, k ≠ old -> k ∈ buzzOrder room2 <-> k ∈ buzzOrder room) /\
    (JsMap.get old (players room) = None -> players room2 = players room) /\
    (old ∉ buzzOrder room -> buzzOrder room2 = buzzOrder room) /\
    (forall rc', rc' ≠ toUpperCase roomCode ->
        rooms st2 !! rc' = rooms st !! rc').
Proof.
  intros Hr Hb Hne Hon. do 3 eexists.
  unfold joinAsHost. rewrite Hr. split; [reflexivity|].
  unfold disconnect. simpl.
  rewrite lookup_insert_ne, Hb, lookup_insert_eq by done. simpl.
  rewrite bool_decide_eq_false_2, bool_decide_eq_false_2 by done.
  split; [reflexivity|]. simpl.
  split; [by rewrite lookup_insert_eq|].
  split; [reflexivity|]. split_and!.
  - done.
  - intros k Hk. simpl. by apply get_delete_ne.
  - intros k Hk. simpl. rewrite list_elem_of_filter. tauto.
  - intros Ho. simpl. by apply delete_absent.
  - intros Ho. simpl. by apply filter_ne_absent.
  - intros rc' Hrc. by rewrite !lookup_insert_ne.
Qed.

(** The host of [quiz] reconnects as [h2] and sends [joinAsHost]; then the
    old connection [h] is lost. *)
Lemma previous_host_leaves_as_contestant_witness :
  hostId quiz_room = "h" /\
  exists st1 st2 room2,
    joinAsHost quiz "h2" "aaaaaa" =
      (st1, [(ToSocket "h2", hostJoined (code quiz_room))]) /\
    disconnect st1 "h" =
      (st2, [(ToRoom (toUpperCase "aaaaaa"), playerLeft "h");
             (ToRoom (toUpperCase "aaaaaa"), roomState (getRoomState room2))]) /\
    rooms st2 !! toUpperCase "aaaaaa" = Some room2 /\
    room2 = {| roomId := roomId quiz_room; code := code quiz_room;
               hostId := "h2";
               players := JsMap.delete "h" (players quiz_room);
               isActive := isActive quiz_room;
               roundStartTime := roundStartTime quiz_room;
               buzzOrder := filter (fun i => i ≠ "h") (buzzOrder quiz_room) |} /\
    status room2 = status quiz_room /\
    (forall k, k ≠ "h" ->
        JsMap.get k (players room2) = JsMap.get k (players quiz_room)) /\
    (forall k, k ≠ "h" -> k ∈ buzzOrder room2 <-> k ∈ buzzOrder quiz_room) /\
    (JsMap.get "h" (players quiz_room) = None ->
     players room2 = players quiz_room) /\
    ("h" ∉ buzzOrder quiz_room -> buzzOrder room2 = buzzOrder quiz_room) /\
    (forall rc', rc' ≠ toUpperCase "aaaaaa" ->
        rooms st2 !! rc' = rooms quiz !! rc').
Proof.
  split; [reflexivity|].
  apply (previous_host_leaves_as_contestant quiz "h" "h2" "aaaaaa" quiz_room);
    [vm_compute; reflexivity | vm_compute; reflexivity | discriminate
    | discriminate].
Defined.

(** ** Room codes (generateRoomCode, createRoom) *)

Lemma append_cons (x : ascii) (a b : string) :
  (String x a ++ b)%string = String x (a ++ b)%string.
Proof. reflexivity. Qed.

Lemma append_assoc (a b c : string) :
  ((a ++ b) ++ c)%string = (a ++ (b ++ c))%string.
Proof.
  induction a as [|x a IH]; [done|]. by rewrite !append_cons, IH.
Qed.

Lemma append_empty_r (a : string) : (a ++ "")%string = a.
Proof. induction a as [|x a IH]; [done|]. by rewrite append_cons, IH. Qed.

Lemma codeLoop_acc rnd n : forall pos acc,
  codeLoop rnd pos n acc = (acc ++ codeLoop rnd pos n "")%string.
Proof.
  induction n as [|n IH]; intros pos acc; simpl.
  - by rewrite append_empty_r.
  - rewrite IH, (IH _ ("" ++ _)%string). apply append_assoc.
Qed.

Lemma codeLoop_S rnd pos n :
  codeLoop rnd pos (S n) "" =
  (charAt chars (rnd pos) ++ codeLoop rnd (S pos) n "")%string.
Proof. simpl. apply codeLoop_acc. Qed.

(** The retry loop stops at the first attempt whose code is free. *)
Lemma retryCode_first_free rs rnd n : forall fuel j,
  (forall i, i < n -> is_Some (rs !! attempt rnd (j + i))) ->
  rs !! attempt rnd (j + n) = None ->
  n <= fuel ->
  retryCode fuel rs rnd (6 * S j) (attempt rnd j) = Some (attempt rnd (j + n)).
Proof.
  induction n as [|n IH]; intros fuel j Hused Hfree Hfuel.
  - rewrite Nat.add_0_r in *. destruct fuel; cbn [retryCode]; by rewrite Hfree.
  - destruct fuel as [|fuel]; [lia|]. cbn [retryCode].
    destruct (Hused 0 ltac:(lia)) as [r Hr]. rewrite Nat.add_0_r in Hr.
    rewrite Hr.
    replace (6 * S j + 6) with (6 * S (S j)) by lia.
    change (generateRoomCode rnd (6 * S j)) with (attempt rnd (S j)).
    replace (j + S n) with (S j + n) in * by lia.
    apply IH; [|done|lia].
    intros i Hi. replace (S j + i) with (j + S i) by lia. apply Hused. lia.
Qed.

(** While every attempt so far collides, the loop is still running. *)
Lemma retryCode_all_used rs rnd : forall fuel j,
  (forall i, i <= fuel -> is_Some (rs !! attempt rnd (j + i))) ->
  retryCode fuel rs rnd (6 * S j) (attempt rnd j) = None.
Proof.
  induction fuel as [|fuel IH]; intros j Hused; cbn [retryCode].
  - destruct (Hused 0 ltac:(lia)) as [r Hr]. rewrite Nat.add_0_r in Hr.
    by rewrite Hr.
  - destruct (Hused 0 ltac:(lia)) as [r Hr]. rewrite Nat.add_0_r in Hr.
    rewrite Hr.
    replace (6 * S j + 6) with (6 * S (S j)) by lia.
    change (generateRoomCode rnd (6 * S j)) with (attempt rnd (S j)).
    apply IH. intros i Hi. replace (S j + i) with (j + S i) by lia.
    apply Hused. lia.
Qed.

Lemma createRoom_retry fuel st sid rnd :
  createRoom fuel st sid rnd =
  match retryCode fuel (rooms st) rnd (6 * 1) (attempt rnd 0) with
  | None => None
  | Some c =>
      Some ({| rooms := <[c := mkRoom c c sid [] false None []]> (rooms st);
               playerToRoom := <[sid := c]> (playerToRoom st) |},
            [(ToSocket sid, roomCreated c)])
  end.
Proof. reflexivity. Qed.

(** *** The code space *)

Lemma charAt_inj i j :
  i < 32 -> j < 32 -> charAt chars i = charAt chars j -> i = j.
Proof.
  intros Hi Hj.
  assert (Forall (fun i => Forall (fun j =>
            charAt chars i = charAt chars j -> i = j) (seq 0 32)) (seq 0 32))
    as H by (apply (bool_decide_unpack _); vm_compute; exact I).
  rewrite Forall_forall in H. specialize (H i).
  rewrite Forall_forall in H. apply H; apply elem_of_seq; lia.
Qed.

Lemma charAt_single i : i < 32 -> exists c, charAt chars i = String c "".
Proof.
  intros Hi.
  assert (Forall (fun i => exists c, charAt chars i = String c "") (seq 0 32))
    as H.
  { repeat (constructor; [by eexists|]). constructor. }
  rewrite Forall_forall in H. apply H, elem_of_seq. lia.
Qed.

Lemma length_bind_const {A B} (f : A -> list B) (L : nat) (l : list A) :
  (forall x, length (f x) = L) -> length (l ≫= f) = length l * L.
Proof.
  intros Hf. induction l as [|x l IH]; [done|].
  rewrite bind_cons, length_app, Hf, IH. simpl. lia.
Qed.

Lemma words_length n : Z.of_nat (length (words n)) = (32 ^ Z.of_nat n)%Z.
Proof.
  induction n as [|n IH]; [done|].
  cbn [words]. rewrite (length_bind_const _ (length (words n))).
  - rewrite length_seq, Nat2Z.inj_mul, IH, (Nat2Z.inj_succ n), Z.pow_succ_r
      by lia.
    done.
  - intros i. by rewrite length_fmap.
Qed.

Lemma words_NoDup n : NoDup (words n).
Proof.
  induction n as [|n IH]; [apply NoDup_singleton|].
  cbn [words]. apply NoDup_bind.
  - intros i j w Hi Hj (w1 & -> & _)%list_elem_of_fmap
      (w2 & Hw & _)%list_elem_of_fmap.
    apply elem_of_seq in Hi, Hj.
    destruct (charAt_single i) as [ci Hci]; [lia|].
    destruct (charAt_single j) as [cj Hcj]; [lia|].
    apply charAt_inj; [lia..|]. rewrite Hci, Hcj in *.
    rewrite !append_cons in Hw. by simplify_eq.
  - intros i _. by apply (NoDup_fmap_2 _).
  - apply NoDup_seq.
Qed.

(** Every word of the code space is drawn by some sequence of indices. *)
Lemma words_drawn n : forall w,
  w ∈ words n ->
  exists ds,
    length ds = n /\ Forall (fun d => d < 32) ds /\
    forall rnd pos, (forall i, i < n -> rnd (pos + i) = nth i ds 0) ->
                    codeLoop rnd pos n "" = w.
Proof.
  induction n as [|n IH]; intros w Hw.
  - apply list_elem_of_singleton in Hw as ->. exists []. by repeat split.
  - cbn [words] in Hw.
    apply list_elem_of_bind in Hw as (d & Hw & Hd).
    apply list_elem_of_fmap in Hw as (w' & -> & Hw').
    apply elem_of_seq in Hd.
    destruct (IH _ Hw') as (ds & Hlen & Hds & Hgen).
    exists (d :: ds). split; [simpl; lia|]. split; [constructor; [lia|done]|].
    intros rnd pos Hrnd. rewrite codeLoop_S.
    pose proof (Hrnd 0 ltac:(lia)) as H0. rewrite Nat.add_0_r in H0.
    rewrite H0. cbn [nth]. f_equal.
    apply Hgen. intros i Hi. replace (S pos + i) with (pos + S i) by lia.
    rewrite Hrnd by lia. done.
Qed.

(** Fewer rooms than codes: some code of the space is no room's. *)
Lemma free_code_exists (rs : gmap string Room) n :
  (Z.of_nat (size rs) < 32 ^ Z.of_nat n)%Z ->
  exists w, w ∈ words n /\ rs !! w = None.
Proof.
  intros Hsize.
  destruct (decide (Forall (fun w => is_Some (rs !! w)) (words n)))
    as [Hall|Hex].
  - exfalso. rewrite Forall_forall in Hall.
    assert (list_to_set (C:=gset string) (words n) ⊆ dom rs) as Hsub.
    { intros w Hw%elem_of_list_to_set. by apply elem_of_dom, Hall. }
    apply subseteq_size in Hsub.
    rewrite size_list_to_set, size_dom in Hsub by apply words_NoDup.
    pose proof (words_length n). lia.
  - apply (not_Forall_Exists _), Exists_exists in Hex as (w & Hw & Hn).
    exists w. split; [done|]. apply eq_None_not_Some. exact Hn.
Qed.

(** *** createRoom *)

(** The retry loop of [createRoom], for any draws: it returns exactly when
    the generator draws a free code, with the first free code drawn, after
    one retry per colliding draw; whenever it returns, the code is one that
    no live room has, the new room is stored under it and every live room
    is kept.  While fewer than 32^6 rooms are live a free code exists, and
    draws on which [createRoom] returns at once exist. *)
Theorem createRoom_returns_first_free_code st sid :
  (Z.of_nat (size (rooms st)) < 32 ^ 6)%Z ->
  (exists rnd c,
      (forall i, rnd i < 32) /\ rooms st !! c = None /\
      createRoom 0 st sid rnd =
        Some ({| rooms := <[c := mkRoom c c sid [] false None []]> (rooms st);
                 playerToRoom := <[sid := c]> (playerToRoom st) |},
              [(ToSocket sid, roomCreated c)])) /\
  (forall rnd n fuel,
      (forall i, i < n -> is_Some (rooms st !! attempt rnd i)) ->
      rooms st !! attempt rnd n = None ->
      n <= fuel ->
      createRoom fuel st sid rnd =
        Some ({| rooms := <[attempt rnd n :=
                            mkRoom (attempt rnd n) (attempt rnd n) sid []
                                   false None []]> (rooms st);
                 playerToRoom := <[sid := attempt rnd n]> (playerToRoom st) |},
              [(ToSocket sid, roomCreated (attempt rnd n))])) /\
  (forall rnd fuel,
      (forall i, i <= fuel -> is_Some (rooms st !! attempt rnd i)) ->
      createRoom fuel st sid rnd = None) /\
  (forall fuel rnd st' out,
      createRoom fuel st sid rnd = Some (st', out) ->
      exists c,
        rooms st !! c = None /\
        out = [(ToSocket sid, roomCreated c)] /\
        rooms st' = <[c := mkRoom c c sid [] false None []]> (rooms st) /\
        playerToRoom st' = <[sid := c]> (playerToRoom st) /\
        (forall rc room, rooms st !! rc = Some room ->
                         rc ≠ c /\ rooms st' !! rc = Some room)).
Proof.
  intros Hsize. split_and!.
  - destruct (free_code_exists (rooms st) 6 Hsize) as (w & Hw & Hfree).
    destruct (words_drawn 6 w Hw) as (ds & Hlen & Hds & Hgen).
    exists (fun i => nth i ds 0), w. split_and!.
    + intros i. destruct (decide (i < length ds)) as [Hi|Hi].
      * by apply (proj1 (Forall_nth _ 0 ds) Hds).
      * rewrite nth_overflow by lia. lia.
    + done.
    + rewrite createRoom_retry. unfold attempt, generateRoomCode.
      rewrite (Hgen _ (6 * 0)) by (intros i _; f_equal; lia).
      cbn [retryCode]. by rewrite Hfree.
  - intros rnd n fuel Hused Hfree Hfuel. rewrite createRoom_retry.
    by rewrite (retryCode_first_free _ _ n fuel 0).
  - intros rnd fuel Hused. rewrite createRoom_retry.
    by rewrite (retryCode_all_used _ _ fuel 0).
  - intros fuel rnd st' out Hc. unfold createRoom in Hc.
    destruct (retryCode _ _ _ _ _) as [c|] eqn:E; [|done].
    apply retryCode_fresh in E. simplify_eq. exists c. split_and!; try done.
    intros rc room Hrc. assert (rc ≠ c) by congruence.
    split; [done|]. simpl. by rewrite lookup_insert_ne.
Qed.

(** A connection [x] creates a room while the room of [quiz] is live. *)
Lemma createRoom_returns_first_free_code_witness :
  (exists rnd c,
      (forall i, rnd i < 32) /\ rooms quiz !! c = None /\
      createRoom 0 quiz "x" rnd =
        Some ({| rooms := <[c := mkRoom c c "x" [] false None []]> (rooms quiz);
                 playerToRoom := <["x" := c]> (playerToRoom quiz) |},
              [(ToSocket "x", roomCreated c)])) /\
  (forall rnd n fuel,
      (forall i, i < n -> is_Some (rooms quiz !! attempt rnd i)) ->
      rooms quiz !! attempt rnd n = None ->
      n <= fuel ->
      createRoom fuel quiz "x" rnd =
        Some ({| rooms := <[attempt rnd n :=
                            mkRoom (attempt rnd n) (attempt rnd n) "x" []
                                   false None []]> (rooms quiz);
                 playerToRoom := <["x" := attempt rnd n]> (playerToRoom quiz) |},
              [(ToSocket "x", roomCreated (attempt rnd n))])) /\
  (forall rnd fuel,
      (forall i, i <= fuel -> is_Some (rooms quiz !! attempt rnd i)) ->
      createRoom fuel quiz "x" rnd = None) /\
  (forall fuel rnd st' out,
      createRoom fuel quiz "x" rnd = Some (st', out) ->
      exists c,
        rooms quiz !! c = None /\
        out = [(ToSocket "x", roomCreated c)] /\
        rooms st' = <[c := mkRoom c c "x" [] false None []]> (rooms quiz) /\
        playerToRoom st' = <["x" := c]> (playerToRoom quiz) /\
        (forall rc room, rooms quiz !! rc = Some room ->
                         rc ≠ c /\ rooms st' !! rc = Some room)).
Proof.
  apply (createRoom_returns_first_free_code quiz "x").
  vm_compute. reflexivity.
Defined.

(** On the draws [zeros] every attempt is the code AAAAAA. *)
Lemma attempt_zeros j : attempt zeros j = "AAAAAA".
Proof. reflexivity. Qed.

(** The assumption on the draws cannot be dropped in this model: on the
    draws [zeros], which do not reach every code, every attempt is the code
    of the room of [quiz], and no number of retries is enough. *)
Lemma createRoom_retries_forever_on_repeated_draws :
  (Z.of_nat (size (rooms quiz)) < 32 ^ 6)%Z /\
  ¬ exists fuel res, createRoom fuel quiz "x" zeros = Some res.
Proof.
  split; [vm_compute; reflexivity|].
  intros (fuel & res & Hres). rewrite createRoom_retry in Hres.
  rewrite (retryCode_all_used _ _ fuel 0) in Hres; [done|].
  intros i _. rewrite attempt_zeros. by eexists.
Qed.

(** *** Termination of the retry loop *)

(** The first attempt whose code is free. *)
Lemma first_free_attempt (rs : gmap string Room) rnd : forall n,
  rs !! attempt rnd n = None ->
  exists k, k <= n /\ rs !! attempt rnd k = None /\
            forall i, i < k -> is_Some (rs !! attempt rnd i).
Proof.
  induction n as [n IH] using lt_wf_ind. intros Hfree.
  destruct (decide (Forall (fun i => is_Some (rs !! attempt rnd i)) (seq 0 n)))
    as [Hall|Hex].
  - exists n. split; [lia|]. split; [done|].
    intros i Hi. rewrite Forall_forall in Hall. apply Hall, elem_of_seq. lia.
  - apply (not_Forall_Exists _), Exists_exists in Hex as (m & Hm & Hn).
    apply elem_of_seq in Hm.
    destruct (IH m ltac:(lia)) as (k & Hk & Hfk & Hused).
    { apply eq_None_not_Some. exact Hn. }
    exists k. split; [lia|]. done.
Qed.

Lemma counting_digit n i :
  i < 6 ->
  counting (6 * n + i) =
  Z.to_nat ((Z.of_nat n / 32 ^ (5 - Z.of_nat i)) mod 32).
Proof.
  intros Hi. unfold counting.
  replace (6 * n + i) with (i + n * 6) by lia.
  rewrite Nat.div_add, Nat.Div0.mod_add by lia.
  rewrite Nat.div_small, Nat.mod_small by lia. done.
Qed.

(** The draws [counting] reach every code. *)
Lemma counting_draws_every_code : draws_every_code counting.
Proof.
  intros w Hw.
  destruct (words_drawn 6 w Hw) as (ds & Hlen & Hds & Hgen).
  destruct ds as [|d0 [|d1 [|d2 [|d3 [|d4 [|d5 [|]]]]]]]; try done.
  repeat match goal with
         | H : Forall _ (_ :: _) |- _ => apply Forall_cons in H as [? H]
         end.
  exists (((((d0 * 32 + d1) * 32 + d2) * 32 + d3) * 32 + d4) * 32 + d5).
  unfold attempt, generateRoomCode. apply Hgen. intros i Hi.
  rewrite counting_digit by done.
  apply Nat2Z.inj. rewrite Z2Nat.id by (apply Z.mod_pos_bound; lia).
  destruct i as [|[|[|[|[|[|]]]]]]; [..|lia]; cbn [nth];
    match goal with
    | |- context [(32 ^ ?e)%Z] =>
        let v := eval vm_compute in (32 ^ e)%Z in
        change (32 ^ e)%Z with v
    end;
    Z.div_mod_to_equations; lia.
Qed.

(** C9. While fewer rooms are live than there are 6-character codes,
    [createRoom] terminates and returns a code that no live room has,
    provided the random draws reach every code of the code space
    ([draws_every_code]).  A number [k] of colliding draws exists after
    which the loop stops: with room for [k] retries or more [createRoom]
    returns, always with the same result, the first free code drawn; the
    new room is stored under that code, the creator is bound to it, and
    every live room is kept under its own code, which differs from the new
    one. *)
Theorem createRoom_terminates_with_fresh_code st sid rnd :
  (Z.of_nat (size (rooms st)) < 32 ^ 6)%Z ->
  draws_every_code rnd ->
  exists k c st',
    c = attempt rnd k /\
    (forall i, i < k -> is_Some (rooms st !! attempt rnd i)) /\
    (forall fuel, k <= fuel ->
        createRoom fuel st sid rnd =
          Some (st', [(ToSocket sid, roomCreated c)])) /\
    (forall fuel res,
        createRoom fuel st sid rnd = Some res ->
        res = (st', [(ToSocket sid, roomCreated c)])) /\
    rooms st !! c = None /\
    rooms st' = <[c := mkRoom c c sid [] false None []]> (rooms st) /\
    playerToRoom st' = <[sid := c]> (playerToRoom st) /\
    (forall rc room, rooms st !! rc = Some room ->
                     rc ≠ c /\ rooms st' !! rc = Some room).
Proof.
  intros Hsize Hrnd.
  destruct (free_code_exists (rooms st) 6 Hsize) as (w & Hw & Hfree).
  destruct (Hrnd w Hw) as (n & Hn). rewrite <- Hn in Hfree.
  destruct (first_free_attempt _ _ _ Hfree) as (k & Hk & Hfk & Hused).
  assert (forall fuel, k <= fuel ->
            createRoom fuel st sid rnd =
            Some ({| rooms := <[attempt rnd k :=
                                mkRoom (attempt rnd k) (attempt rnd k) sid []
                                       false None []]> (rooms st);
                     playerToRoom := <[sid := attempt rnd k]> (playerToRoom st) |},
                  [(ToSocket sid, roomCreated (attempt rnd k))])) as Hret.
  { intros fuel Hfuel. rewrite createRoom_retry.
    by rewrite (retryCode_first_free _ _ k fuel 0). }
  eexists k, (attempt rnd k), _. split_and!.
  - done.
  - done.
  - exact Hret.
  - intros fuel res Hres. destruct (decide (k <= fuel)) as [Hle|Hgt].
    + rewrite Hret in Hres by done. congruence.
    + rewrite createRoom_retry in Hres.
      rewrite (retryCode_all_used _ _ fuel 0) in Hres; [done|].
      intros i Hi. apply Hused. lia.
  - done.
  - done.
  - done.
  - intros rc room Hrc. assert (rc ≠ attempt rnd k) by congruence.
    split; [done|]. simpl. by rewrite lookup_insert_ne.
Qed.

(** A connection [x] creates a room while the room of [quiz] is live, on
    the draws [counting]. *)
Lemma createRoom_terminates_with_fresh_code_witness :
  exists k c st',
    c = attempt counting k /\
    (forall i, i < k -> is_Some (rooms quiz !! attempt counting i)) /\
    (forall fuel, k <= fuel ->
        createRoom fuel quiz "x" counting =
          Some (st', [(ToSocket "x", roomCreated c)])) /\
    (forall fuel res,
        createRoom fuel quiz "x" counting = Some res ->
        res = (st', [(ToSocket "x", roomCreated c)])) /\
    rooms quiz !! c = None /\
    rooms st' = <[c := mkRoom c c "x" [] false None []]> (rooms quiz) /\
    playerToRoom st' = <["x" := c]> (playerToRoom quiz) /\
    (forall rc room, rooms quiz !! rc = Some room ->
                     rc ≠ c /\ rooms st' !! rc = Some room).
Proof.
  apply (createRoom_terminates_with_fresh_code quiz "x" counting).
  - vm_compute. reflexivity.
  - exact counting_draws_every_code.
Defined.

(** On the draws [counting] the first attempt, AAAAAA, is the code of the
    room of [quiz]; the second, AAAAAB, is free and becomes the new room's
    code after one retry. *)
Example createRoom_counting :
  attempt counting 0 = "AAAAAA" /\ attempt counting 1 = "AAAAAB" /\
  createRoom 0 quiz "x" counting = None /\
  (snd <$> createRoom 1 quiz "x" counting) =
    Some [(ToSocket "x", roomCreated "AAAAAB")].
Proof. by vm_compute. Qed.

(** * Further properties of the server and its clients *)

(** ** Reachability along a run *)

Lemma run_reachable fuel evs : forall st st',
  reachable st -> fst <$> run fuel st evs = Some st' -> reachable st'.
Proof.
  induction evs as [|[sid ev] evs IH]; intros st st' Hst Hrun; simpl in *.
  - by simplify_eq.
  - destruct (step fuel st sid ev) as [[st1 out1]|] eqn:Hstep; [|done].
    destruct (run fuel st1 evs) as [[st2 out2]|] eqn:Hrest; [|done].
    simplify_eq/=. apply (IH st1); [|by rewrite Hrest].
    by eapply reachable_step.
Qed.

(** ** More of the insertion-ordered map *)

Lemma set_set {V} (m : list (string * V)) k v v' :
  JsMap.set k v (JsMap.set k v' m) = JsMap.set k v m.
Proof.
  induction m as [|[k0 v0] m IH]; simpl.
  - by rewrite decide_True.
  - destruct (decide (k0 = k)) as [->|Hne]; simpl.
    + by rewrite decide_True.
    + rewrite decide_False by done. by rewrite IH.
Qed.

Lemma keys_set_present {V} (m : list (string * V)) k v :
  is_Some (JsMap.get k m) -> JsMap.keys (JsMap.set k v m) = JsMap.keys m.
Proof.
  induction m as [|[k0 v0] m IH]; simpl; [by intros [? ?]|].
  destruct (decide (k0 = k)) as [->|Hne]; simpl; [done|].
  intros H. by rewrite IH.
Qed.

Lemma keys_set_absent {V} (m : list (string * V)) k v :
  JsMap.get k m = None -> JsMap.keys (JsMap.set k v m) = JsMap.keys m ++ [k].
Proof.
  induction m as [|[k0 v0] m IH]; simpl; [done|].
  destruct (decide (k0 = k)) as [->|Hne]; simpl; [done|].
  intros H. by rewrite IH.
Qed.

Lemma keys_delete {V} (m : list (string * V)) k :
  JsMap.keys (JsMap.delete k m) = filter (fun i => i ≠ k) (JsMap.keys m).
Proof.
  induction m as [|[k0 v0] m IH]; simpl; [done|].
  destruct (decide (k0 = k)) as [->|Hne].
  - rewrite filter_cons_False by (intros H; by apply H). done.
  - rewrite filter_cons_True by done. simpl. by rewrite IH.
Qed.

Lemma get_None_keys {V} (m : list (string * V)) k :
  JsMap.get k m = None -> k ∉ JsMap.keys m.
Proof.
  induction m as [|[k0 v0] m IH]; simpl; [by intros _ ?%not_elem_of_nil|].
  destruct (decide (k0 = k)) as [->|Hne]; [done|].
  intros H [?|?]%elem_of_cons; [congruence | by apply IH].
Qed.

Lemma NoDup_keys_set {V} (m : list (string * V)) k v :
  NoDup (JsMap.keys m) -> NoDup (JsMap.keys (JsMap.set k v m)).
Proof.
  intros Hnd. destruct (JsMap.get k m) eqn:Hg.
  - rewrite keys_set_present; [done | by rewrite Hg].
  - rewrite keys_set_absent by done. apply NoDup_app.
    split; [done|]. split; [|apply NoDup_singleton].
    intros x Hx ->%list_elem_of_singleton. by apply get_None_keys in Hg.
Qed.

Lemma NoDup_keys_delete {V} (m : list (string * V)) k :
  NoDup (JsMap.keys m) -> NoDup (JsMap.keys (JsMap.delete k m)).
Proof. intros Hnd. rewrite keys_delete. by apply NoDup_filter. Qed.

(** ** Room codes are stable under toUpperCase *)

Lemma upper_ascii_idem c : upper_ascii (upper_ascii c) = upper_ascii c.
Proof. destruct c as [[] [] [] [] [] [] [] []]; reflexivity. Qed.

Lemma toUpperCase_idem s : toUpperCase (toUpperCase s) = toUpperCase s.
Proof.
  induction s as [|c s IH]; simpl; [done|]. by rewrite upper_ascii_idem, IH.
Qed.

Lemma append_empty_l (b : string) : ("" ++ b)%string = b.
Proof. reflexivity. Qed.

(** Each of the 32 entries of [chars] is one capital letter or digit, none
    of I, O, 0, 1. *)
Lemma charAt_chars i :
  i < 32 ->
  exists c, charAt chars i = String c "" /\ upper_ascii c = c /\ codeChar c.
Proof.
  intros Hi.
  assert (Forall (fun i => exists c, charAt chars i = String c "" /\
                                     upper_ascii c = c /\ codeChar c)
                 (seq 0 32)) as H.
  { repeat (constructor;
            [eexists; split; [reflexivity|]; split; [reflexivity|];
             split; apply (bool_decide_unpack _); vm_compute; exact I|]).
    constructor. }
  rewrite Forall_forall in H. apply H, elem_of_seq. lia.
Qed.

Lemma codeLoop_in_range rnd n : forall pos,
  (forall i, rnd i < 32) ->
  String.length (codeLoop rnd pos n "") = n /\
  toUpperCase (codeLoop rnd pos n "") = codeLoop rnd pos n "" /\
  Forall codeChar (list_ascii_of_string (codeLoop rnd pos n "")).
Proof.
  induction n as [|n IH]; intros pos Hr; [by repeat split|].
  rewrite codeLoop_S.
  destruct (charAt_chars (rnd pos) (Hr pos)) as (c & -> & Hu & Hc).
  destruct (IH (S pos) Hr) as (Hl & Ht & Hf).
  rewrite append_cons, append_empty_l. simpl. rewrite Hl, Hu, Ht.
  split; [done|]. split; [done|]. by constructor.
Qed.

Lemma retryCode_is_drawn fuel rs rnd : forall pos c c',
  retryCode fuel rs rnd pos c = Some c' ->
  c' = c \/ exists pos', c' = generateRoomCode rnd pos'.
Proof.
  induction fuel as [|fuel IH]; intros pos c c'; simpl.
  - destruct (rs !! c); [done|]. intros [= <-]. by left.
  - destruct (rs !! c); [|intros [= <-]; by left].
    intros [->|[pos' ->]]%IH; right; by eexists.
Qed.

(** The shape of a drawn code, for the proofs below. *)
Lemma generateRoomCode_shape_aux rnd :
  (forall i, rnd i < 32) ->
  forall pos, String.length (generateRoomCode rnd pos) = 6 /\
              generateRoomCode rnd pos ≠ "" /\
              toUpperCase (generateRoomCode rnd pos) = generateRoomCode rnd pos.
Proof.
  intros Hr pos. unfold generateRoomCode.
  destruct (codeLoop_in_range rnd 6 pos Hr) as (Hl & Ht & Hf).
  split_and!; try done. intros He. by rewrite He in Hl.
Qed.

(** X1. When every random index is within the alphabet (as
    [Math.floor(Math.random() * 32)] is), [generateRoomCode] returns a code
    of exactly six characters, each a capital letter or digit of the
    alphabet and none of I, O, 0, 1; the code is not empty and
    [toUpperCase] leaves it as it is. *)
Theorem generateRoomCode_shape rnd pos :
  (forall i, rnd i < 32) ->
  String.length (generateRoomCode rnd pos) = 6 /\
  generateRoomCode rnd pos ≠ "" /\
  toUpperCase (generateRoomCode rnd pos) = generateRoomCode rnd pos /\
  Forall codeChar (list_ascii_of_string (generateRoomCode rnd pos)).
Proof.
  intros Hr. unfold generateRoomCode.
  destruct (codeLoop_in_range rnd 6 pos Hr) as (Hl & Ht & Hf).
  split_and!; try done. intros He. by rewrite He in Hl.
Qed.

(** The code drawn from the indices 5, 12, 19, 26, 1, 8. *)
Lemma generateRoomCode_shape_witness :
  generateRoomCode (fun i => (7 * i + 5) mod 32) 0 = "FNV4BJ" /\
  String.length (generateRoomCode (fun i => (7 * i + 5) mod 32) 0) = 6 /\
  generateRoomCode (fun i => (7 * i + 5) mod 32) 0 ≠ "" /\
  toUpperCase (generateRoomCode (fun i => (7 * i + 5) mod 32) 0) =
    generateRoomCode (fun i => (7 * i + 5) mod 32) 0 /\
  Forall codeChar
    (list_ascii_of_string (generateRoomCode (fun i => (7 * i + 5) mod 32) 0)).
Proof.
  split; [reflexivity|].
  apply (generateRoomCode_shape (fun i => (7 * i + 5) mod 32) 0).
  intros i. apply Nat.mod_upper_bound. lia.
Defined.

(** X2. A room code is looked up by its upper-case form: [joinRoom] and
    [joinAsHost] give the same result for a code and for its upper-case
    form, hence for any two spellings that differ in letter case only. *)
Theorem room_lookup_ignores_case st sid rc1 rc2 nm :
  (joinRoom st sid (toUpperCase rc1) nm = joinRoom st sid rc1 nm /\
   joinAsHost st sid (toUpperCase rc1) = joinAsHost st sid rc1) /\
  (toUpperCase rc1 = toUpperCase rc2 ->
   joinRoom st sid rc1 nm = joinRoom st sid rc2 nm /\
   joinAsHost st sid rc1 = joinAsHost st sid rc2).
Proof.
  unfold joinRoom, joinAsHost. split.
  - by rewrite toUpperCase_idem.
  - by intros ->.
Qed.

(** X3. A room that [createRoom] has just created (random indices within
    the alphabet) is stored under the six-character code announced to its
    creator, idle and empty, with the creator as bound host; and a
    [joinRoom] with that code, in any letter case, from any connection,
    finds it and adds the connection as its contestant. *)
Theorem created_room_is_joinable fuel st sid rnd st1 out :
  (forall i, rnd i < 32) ->
  createRoom fuel st sid rnd = Some (st1, out) ->
  exists c room,
    out = [(ToSocket sid, roomCreated c)] /\
    String.length c = 6 /\ toUpperCase c = c /\
    rooms st1 !! c = Some room /\
    players room = [] /\ buzzOrder room = [] /\ status room = Idle /\
    hostRoom st1 sid = Some (c, room) /\
    (forall sid' rc nm,
        toUpperCase rc = c ->
        exists st2 room2,
          joinRoom st1 sid' rc nm =
            (st2, [(ToSocket sid', roomJoined c nm);
                   (ToRoom c, playerJoined (mkPlayer sid' nm None));
                   (ToRoom c, roomState (getRoomState room2))]) /\
          rooms st2 !! c = Some room2 /\
          players room2 = [(sid', mkPlayer sid' nm None)] /\
          hostId room2 = sid /\
          playerToRoom st2 !! sid' = Some c).
Proof.
  intros Hrnd Hc. unfold createRoom in Hc.
  destruct (retryCode _ _ _ _ _) as [c|] eqn:E; [|done]. simplify_eq.
  assert (String.length c = 6 /\ c ≠ "" /\ toUpperCase c = c) as (Hl & Hne & Hu).
  { apply retryCode_is_drawn in E as [->|[pos' ->]];
      by apply generateRoomCode_shape_aux. }
  do 2 eexists. split; [reflexivity|]. split; [done|]. split; [done|].
  simpl. rewrite lookup_insert_eq. split; [reflexivity|]. simpl.
  split; [done|]. split; [done|]. split; [done|]. split.
  - apply hostRoom_Some. simpl. by rewrite !lookup_insert_eq.
  - intros sid' rc nm Hrc. unfold joinRoom. simpl.
    rewrite Hrc, lookup_insert_eq. do 2 eexists.
    split; [reflexivity|]. simpl. by rewrite !lookup_insert_eq.
Qed.

(** A connection creates a room next to the one of [quiz]. *)
Lemma created_room_is_joinable_witness :
  exists st1 out c room,
    createRoom 0 quiz "x" (fun i => (7 * i + 5) mod 32) = Some (st1, out) /\
    out = [(ToSocket "x", roomCreated c)] /\
    String.length c = 6 /\ toUpperCase c = c /\
    rooms st1 !! c = Some room /\
    players room = [] /\ buzzOrder room = [] /\ status room = Idle /\
    hostRoom st1 "x" = Some (c, room) /\
    (forall sid' rc nm,
        toUpperCase rc = c ->
        exists st2 room2,
          joinRoom st1 sid' rc nm =
            (st2, [(ToSocket sid', roomJoined c nm);
                   (ToRoom c, playerJoined (mkPlayer sid' nm None));
                   (ToRoom c, roomState (getRoomState room2))]) /\
          rooms st2 !! c = Some room2 /\
          players room2 = [(sid', mkPlayer sid' nm None)] /\
          hostId room2 = "x" /\
          playerToRoom st2 !! sid' = Some c).
Proof.
  assert (exists st1 out,
             createRoom 0 quiz "x" (fun i => (7 * i + 5) mod 32) =
             Some (st1, out)) as (st1 & out & Hc)
    by (do 2 eexists; vm_compute; reflexivity).
  destruct (created_room_is_joinable 0 quiz "x" (fun i => (7 * i + 5) mod 32)
              st1 out) as (c & room & H);
    [intros i; apply Nat.mod_upper_bound; lia | exact Hc |].
  exists st1, out, c, room. split; [exact Hc | exact H].
Defined.

(** ** Signals (pressBuzzer) *)

(** X4. [pressBuzzer] emits something exactly when the connection is bound
    to a live room that is active with a non-zero [roundStartTime] and the
    connection is a contestant of it whose [buzzTime] is null; in every
    other case it emits nothing and returns the state unchanged. *)
Theorem pressBuzzer_accepts_exactly st sid now :
  (snd (pressBuzzer st sid now) ≠ [] <->
   exists rc room player start,
     playerToRoom st !! sid = Some rc /\ rc ≠ "" /\
     rooms st !! rc = Some room /\
     isActive room = true /\
     roundStartTime room = Some start /\ start ≠ 0%Z /\
     JsMap.get sid (players room) = Some player /\
     buzzTime player = None) /\
  (snd (pressBuzzer st sid now) = [] -> pressBuzzer st sid now = (st, [])).
Proof.
  unfold pressBuzzer.
  destruct (playerToRoom st !! sid) as [rc|] eqn:Hb;
    [|split; [split; [done | by intros (? & ? & ? & ? & ? & _)] | done]].
  destruct (bool_decide (rc = "")) eqn:Hrc; bool_hyps;
    [split; [split; [done | intros (? & ? & ? & ? & ? & ? & _); congruence]
            | done]|].
  destruct (rooms st !! rc) as [room|] eqn:Hr;
    [|split; [split; [done | intros (? & ? & ? & ? & ? & ? & ? & _); congruence]
             | done]].
  destruct (isActive room) eqn:Ha; simpl;
    [|split; [split; [done | intros (? & ? & ? & ? & ? & ? & ? & ? & _);
                             congruence] | done]].
  destruct (roundStartTime room) as [start|] eqn:Hs; simpl;
    [|split; [split; [done | intros (? & ? & ? & ? & ? & ? & ? & ? & ? & _);
                             congruence] | done]].
  destruct (start =? 0)%Z eqn:Hz;
    [apply Z.eqb_eq in Hz;
     split; [split; [done | intros (? & ? & ? & ? & ? & ? & ? & ? & ? & ? & _);
                            congruence] | done]|].
  apply Z.eqb_neq in Hz.
  destruct (JsMap.get sid (players room)) as [player|] eqn:Hp;
    [|split; [split; [done | intros (? & ? & ? & ? & ? & ? & ? & ? & ? & ? & ? & _);
                             congruence] | done]].
  destruct (buzzTime player) eqn:Hbt;
    [split; [split; [done | intros (? & ? & ? & ? & ? & ? & ? & ? & ? & ? & ? & ?);
                            congruence] | done]|].
  simpl. split; [|done]. split; [|done]. intros _.
  exists rc, room, player, start. by rewrite Hs.
Qed.

(** The accepting branch of [pressBuzzer], for the proofs below. *)
Lemma pressBuzzer_accepted st sid now rc room player start :
  playerToRoom st !! sid = Some rc -> rc ≠ "" ->
  rooms st !! rc = Some room ->
  isActive room = true ->
  roundStartTime room = Some start -> start ≠ 0%Z ->
  JsMap.get sid (players room) = Some player ->
  buzzTime player = None ->
  pressBuzzer st sid now =
    (let player' := mkPlayer (id player) (name player) (Some (now - start)%Z) in
     let room' := mkRoom (roomId room) (code room) (hostId room)
                    (JsMap.set sid player' (players room)) (isActive room)
                    (roundStartTime room) (buzzOrder room ++ [sid]) in
     ({| rooms := <[rc := room']> (rooms st);
         playerToRoom := playerToRoom st |},
      [(ToRoom rc, buzzerPressed player' (length (buzzOrder room ++ [sid])));
       (ToRoom rc, roomState (getRoomState room'))])).
Proof.
  intros Hb Hne Hr Ha Hs Hz Hp Hbt. unfold pressBuzzer.
  rewrite Hb, bool_decide_eq_false_2, Hr by done.
  destruct room; simpl in *; subst. simpl.
  by rewrite (proj2 (Z.eqb_neq _ _) Hz), Hp, Hbt.
Qed.

(** X5. An accepted signal records the time elapsed since the round
    started ([now - roundStartTime], not negative when the clock has not
    gone back), appends the connection to [buzzOrder] and announces the new
    length as its rank; the contestant keeps its name and its place in
    [players], and every other contestant, the host and the round state
    are as before. *)
Theorem accepted_signal_effect st sid now rc room player start :
  playerToRoom st !! sid = Some rc -> rc ≠ "" ->
  rooms st !! rc = Some room ->
  isActive room = true ->
  roundStartTime room = Some start -> start ≠ 0%Z ->
  JsMap.get sid (players room) = Some player ->
  buzzTime player = None ->
  exists room',
    pressBuzzer st sid now =
      ({| rooms := <[rc := room']> (rooms st);
          playerToRoom := playerToRoom st |},
       [(ToRoom rc,
         buzzerPressed (mkPlayer (id player) (name player)
                                 (Some (now - start)%Z))
                       (S (length (buzzOrder room))));
        (ToRoom rc, roomState (getRoomState room'))]) /\
    buzzOrder room' = buzzOrder room ++ [sid] /\
    JsMap.get sid (players room') =
      Some (mkPlayer (id player) (name player) (Some (now - start)%Z)) /\
    (forall k, k ≠ sid ->
               JsMap.get k (players room') = JsMap.get k (players room)) /\
    JsMap.keys (players room') = JsMap.keys (players room) /\
    ((start <= now)%Z -> (0 <= now - start)%Z) /\
    isActive room' = true /\ roundStartTime room' = Some start /\
    hostId room' = hostId room /\ code room' = code room.
Proof.
  intros Hb Hne Hr Ha Hs Hz Hp Hbt. eexists.
  rewrite (pressBuzzer_accepted _ _ _ _ _ _ _ Hb Hne Hr Ha Hs Hz Hp Hbt).
  cbv zeta. rewrite length_app, Nat.add_1_r. split; [reflexivity|]. simpl.
  split_and!; try done.
  - apply get_set_eq.
  - intros k Hk. by apply get_set_ne.
  - apply keys_set_present. by rewrite Hp.
  - lia.
Qed.

(** In [quiz] contestant [q] signals at 125, 25 ms into the round. *)
Lemma accepted_signal_effect_witness :
  exists room',
    pressBuzzer quiz "q" 125 =
      ({| rooms := <["AAAAAA" := room']> (rooms quiz);
          playerToRoom := playerToRoom quiz |},
       [(ToRoom "AAAAAA",
         buzzerPressed (mkPlayer "q" "Ravi" (Some (125 - 100)%Z))
                       (S (length (buzzOrder quiz_room))));
        (ToRoom "AAAAAA", roomState (getRoomState room'))]) /\
    buzzOrder room' = buzzOrder quiz_room ++ ["q"] /\
    JsMap.get "q" (players room') =
      Some (mkPlayer "q" "Ravi" (Some (125 - 100)%Z)) /\
    (forall k, k ≠ "q" ->
               JsMap.get k (players room') = JsMap.get k (players quiz_room)) /\
    JsMap.keys (players room') = JsMap.keys (players quiz_room) /\
    ((100 <= 125)%Z -> (0 <= 125 - 100)%Z) /\
    isActive room' = true /\ roundStartTime room' = Some 100%Z /\
    hostId room' = hostId quiz_room /\ code room' = code quiz_room.
Proof.
  apply (accepted_signal_effect quiz "q" 125 "AAAAAA" quiz_room
           (mkPlayer "q" "Ravi" None) 100);
    first [discriminate | vm_compute; reflexivity].
Defined.

(** X6. Once the bound host has stopped or reset the round, a signal from
    any connection bound to the room is dropped: the state stays as the
    host's command left it and nothing is emitted. *)
Theorem closed_round_rejects_signals st sid rc room sid' now :
  playerToRoom st !! sid = Some rc -> rc ≠ "" ->
  rooms st !! rc = Some room -> hostId room = sid ->
  playerToRoom st !! sid' = Some rc ->
  pressBuzzer (fst (stopRound st sid)) sid' now =
    (fst (stopRound st sid), []) /\
  pressBuzzer (fst (resetRound st sid)) sid' now =
    (fst (resetRound st sid), []).
Proof.
  intros Hb Hne Hr Hh Hb'.
  assert (hostRoom st sid = Some (rc, room)) as E by by apply hostRoom_Some.
  unfold stopRound, resetRound. rewrite E. simpl. unfold pressBuzzer. simpl.
  rewrite Hb', bool_decide_eq_false_2 by done. rewrite !lookup_insert_eq.
  simpl. done.
Qed.

(** In [quiz] the host stops, or resets, the round; [q], who has not
    signalled yet, signals afterwards. *)
Lemma closed_round_rejects_signals_witness :
  pressBuzzer (fst (stopRound quiz "h")) "q" 130 =
    (fst (stopRound quiz "h"), []) /\
  pressBuzzer (fst (resetRound quiz "h")) "q" 130 =
    (fst (resetRound quiz "h"), []).
Proof.
  apply (closed_round_rejects_signals quiz "h" "AAAAAA" quiz_room "q" 130);
    first [discriminate | vm_compute; reflexivity].
Defined.

(** X7. A connection that has just sent [joinRoom] for a room whose round
    is active is accepted on its next signal, whatever it did in the room
    before: it is appended to [buzzOrder], its [buzzTime] is the time since
    the round started, and the rank announced is the new length. *)
Theorem join_then_signal_is_accepted st sid roomCode nm now room start :
  rooms st !! toUpperCase roomCode = Some room ->
  toUpperCase roomCode ≠ "" ->
  isActive room = true ->
  roundStartTime room = Some start -> start ≠ 0%Z ->
  exists st2 out2 room2,
    pressBuzzer (fst (joinRoom st sid roomCode nm)) sid now = (st2, out2) /\
    rooms st2 !! toUpperCase roomCode = Some room2 /\
    buzzOrder room2 = buzzOrder room ++ [sid] /\
    JsMap.get sid (players room2) =
      Some (mkPlayer sid nm (Some (now - start)%Z)) /\
    ranks (toUpperCase roomCode) out2 = [S (length (buzzOrder room))].
Proof.
  intros Hr Hne Ha Hs Hz. unfold joinRoom. rewrite Hr. simpl.
  erewrite pressBuzzer_accepted; simpl;
    [| by rewrite lookup_insert_eq | done | by rewrite lookup_insert_eq
     | done | done | done | apply get_set_eq | done].
  do 3 eexists. split; [reflexivity|]. simpl.
  rewrite lookup_insert_eq. split; [reflexivity|]. simpl.
  split; [done|]. split; [apply get_set_eq|].
  unfold ranks. simpl. rewrite decide_True by done.
  by rewrite length_app, Nat.add_1_r.
Qed.

(** A late contestant [x] joins the active round of [quiz] and signals. *)
Lemma join_then_signal_is_accepted_witness :
  exists st2 out2 room2,
    pressBuzzer (fst (joinRoom quiz "x" "aaaaaa" "Xi")) "x" 140 = (st2, out2) /\
    rooms st2 !! toUpperCase "aaaaaa" = Some room2 /\
    buzzOrder room2 = buzzOrder quiz_room ++ ["x"] /\
    JsMap.get "x" (players room2) =
      Some (mkPlayer "x" "Xi" (Some (140 - 100)%Z)) /\
    ranks (toUpperCase "aaaaaa") out2 = [S (length (buzzOrder quiz_room))].
Proof.
  apply (join_then_signal_is_accepted quiz "x" "aaaaaa" "Xi" 140 quiz_room 100);
    first [discriminate | vm_compute; reflexivity].
Defined.

(** ** Isolation of rooms and connections *)

(** X8. One event of a connection changes no other connection's binding,
    and changes no room except one the connection is bound to before or
    after the event. *)
Theorem step_touches_own_room_only fuel st sid ev st' out :
  step fuel st sid ev = Some (st', out) ->
  (forall sid', sid' ≠ sid ->
                playerToRoom st' !! sid' = playerToRoom st !! sid') /\
  (forall rc, rooms st' !! rc ≠ rooms st !! rc ->
              playerToRoom st !! sid = Some rc \/
              playerToRoom st' !! sid = Some rc).
Proof.
  intros Hstep.
  assert (forall (m : gmap string Room) k v rc,
             <[k := v]> m !! rc ≠ m !! rc -> rc = k) as Hins.
  { intros m k v rc H. destruct (decide (rc = k)); [done|].
    by rewrite lookup_insert_ne in H. }
  assert (forall (m : gmap string Room) k rc,
             delete k m !! rc ≠ m !! rc -> rc = k) as Hdel.
  { intros m k rc H. destruct (decide (rc = k)); [done|].
    by rewrite lookup_delete_ne in H. }
  destruct ev; simpl in Hstep.
  - unfold createRoom in Hstep.
    destruct (retryCode _ _ _ _ _) as [c0|]; simplify_eq. simpl. split.
    + intros sid' Hs. by rewrite lookup_insert_ne.
    + intros rc ->%Hins. right. by rewrite lookup_insert_eq.
  - unfold joinAsHost in Hstep.
    destruct (rooms st !! toUpperCase roomCode); simplify_eq; simpl;
      [|by split]. split.
    + intros sid' Hs. by rewrite lookup_insert_ne.
    + intros rc ->%Hins. right. by rewrite lookup_insert_eq.
  - unfold joinRoom in Hstep.
    destruct (rooms st !! toUpperCase roomCode); simplify_eq; simpl;
      [|by split]. split.
    + intros sid' Hs. by rewrite lookup_insert_ne.
    + intros rc ->%Hins. right. by rewrite lookup_insert_eq.
  - unfold startRound in Hstep.
    destruct (hostRoom st sid) as [[rc0 room]|] eqn:E; simplify_eq; simpl;
      [|by split].
    apply hostRoom_Some in E as (Hb & _). split; [done|].
    intros rc ->%Hins. by left.
  - unfold stopRound in Hstep.
    destruct (hostRoom st sid) as [[rc0 room]|] eqn:E; simplify_eq; simpl;
      [|by split].
    apply hostRoom_Some in E as (Hb & _). split; [done|].
    intros rc ->%Hins. by left.
  - unfold resetRound in Hstep.
    destruct (hostRoom st sid) as [[rc0 room]|] eqn:E; simplify_eq; simpl;
      [|by split].
    apply hostRoom_Some in E as (Hb & _). split; [done|].
    intros rc ->%Hins. by left.
  - unfold pressBuzzer in Hstep.
    destruct (playerToRoom st !! sid) as [rc0|] eqn:Hb;
      [|simplify_eq; by split].
    repeat case_match; simplify_eq; simpl; try by split.
    split; [done|]. intros rc ->%Hins. by left.
  - unfold onGetRoomState in Hstep. repeat case_match; simplify_eq; by split.
  - unfold disconnect in Hstep.
    destruct (playerToRoom st !! sid) as [rc0|] eqn:Hb;
      [|simplify_eq; by split].
    repeat case_match; simplify_eq; simpl; try by split.
    + split; [intros sid' Hs; by rewrite lookup_delete_ne|].
      intros rc ->%Hdel. by left.
    + split; [intros sid' Hs; by rewrite lookup_delete_ne|].
      intros rc ->%Hins. by left.
Qed.

(** The host of [quiz] starts a new round. *)
Lemma step_touches_own_room_only_witness :
  (forall sid', sid' ≠ "h" ->
                playerToRoom (fst (startRound quiz "h" 200)) !! sid' =
                playerToRoom quiz !! sid') /\
  (forall rc, rooms (fst (startRound quiz "h" 200)) !! rc ≠ rooms quiz !! rc ->
              playerToRoom quiz !! "h" = Some rc \/
              playerToRoom (fst (startRound quiz "h" 200)) !! "h" = Some rc).
Proof.
  apply (step_touches_own_room_only 0 quiz "h" (StartRound 200) _
           (snd (startRound quiz "h" 200))).
  reflexivity.
Defined.

(** ** The registry in reachable states *)

Lemma room_wf_step fuel st sid ev st' out :
  (forall rc room, rooms st !! rc = Some room -> room_wf rc room) ->
  step fuel st sid ev = Some (st', out) ->
  forall rc room, rooms st' !! rc = Some room -> room_wf rc room.
Proof.
  intros Hinv Hstep rc room' Hr'.
  assert (forall k r, room_wf k r -> <[k := r]> (rooms st) !! rc = Some room' ->
                      room_wf rc room') as Hput.
  { intros k r Hok Hl. split_lookup Hl; simplify_eq; eauto. }
  assert (forall k room b t bo,
             room_wf k room ->
             room_wf k (mkRoom (roomId room) (code room) (hostId room)
                          (JsMap.forEach clearBuzz (players room)) b t bo))
    as Hclear.
  { intros k room b t bo (H1 & H2 & Hn & H3). split_and!; simpl; [done..| |].
    - by rewrite keys_forEach.
    - intros k' p. rewrite get_forEach.
      destruct (JsMap.get k' (players room)) eqn:Hk; simpl; [|done].
      intros [= <-]. simpl. by eapply H3. }
  assert (forall k room p b t bo,
             room_wf k room -> id p = sid ->
             room_wf k (mkRoom (roomId room) (code room) (hostId room)
                          (JsMap.set sid p (players room)) b t bo)) as Hset.
  { intros k room p b t bo (H1 & H2 & Hn & H3) Hp.
    split_and!; simpl; [done..| |].
    - by apply NoDup_keys_set.
    - intros k' p'. destruct (decide (sid = k')) as [->|Hne].
      + rewrite get_set_eq. by intros [= <-].
      + rewrite get_set_ne by done. apply H3. }
  destruct ev; simpl in Hstep.
  - unfold createRoom in Hstep.
    destruct (retryCode _ _ _ _ _) as [c0|]; simplify_eq. simpl in Hr'.
    eapply Hput; [|exact Hr']. split_and!; simpl; [done..|constructor|done].
  - unfold joinAsHost in Hstep.
    destruct (rooms st !! toUpperCase roomCode) as [room|] eqn:Hr;
      simplify_eq; simpl in *; [|eauto].
    eapply Hput; [|exact Hr']. apply Hinv in Hr. exact Hr.
  - unfold joinRoom in Hstep.
    destruct (rooms st !! toUpperCase roomCode) as [room|] eqn:Hr;
      simplify_eq; simpl in *; [|eauto].
    eapply Hput; [|exact Hr']. apply Hset; eauto.
  - unfold startRound in Hstep.
    destruct (hostRoom st sid) as [[rc0 room]|] eqn:E; simplify_eq;
      simpl in *; [|eauto].
    apply hostRoom_Some in E as (_ & _ & Hr & _).
    eapply Hput; [|exact Hr'].
    apply Hclear. eauto.
  - unfold stopRound in Hstep.
    destruct (hostRoom st sid) as [[rc0 room]|] eqn:E; simplify_eq;
      simpl in *; [|eauto].
    apply hostRoom_Some in E as (_ & _ & Hr & _).
    eapply Hput; [|exact Hr']. apply Hinv in Hr. exact Hr.
  - unfold resetRound in Hstep.
    destruct (hostRoom st sid) as [[rc0 room]|] eqn:E; simplify_eq;
      simpl in *; [|eauto].
    apply hostRoom_Some in E as (_ & _ & Hr & _).
    eapply Hput; [|exact Hr'].
    apply Hclear. eauto.
  - unfold pressBuzzer in Hstep.
    destruct (playerToRoom st !! sid) as [rc0|]; [|simplify_eq; eauto].
    destruct (bool_decide (rc0 = "")); [simplify_eq; eauto|].
    destruct (rooms st !! rc0) as [room|] eqn:Hr; [|simplify_eq; eauto].
    destruct (negb (isActive room) || noStart (roundStartTime room));
      [simplify_eq; eauto|].
    destruct (JsMap.get sid (players room)) as [player|] eqn:Hp;
      [|simplify_eq; eauto].
    destruct (roundStartTime room) as [start|]; [|simplify_eq; eauto].
    destruct (buzzTime player); simplify_eq; [eauto|]. simpl in Hr'.
    eapply Hput; [|exact Hr']. apply Hset; [eauto|]. simpl.
    apply Hinv in Hr as (_ & _ & _ & H3). by eapply H3.
  - unfold onGetRoomState in Hstep. repeat case_match; simplify_eq; eauto.
  - unfold disconnect in Hstep.
    destruct (playerToRoom st !! sid) as [rc0|]; [|simplify_eq; eauto].
    destruct (bool_decide (rc0 = "")); [simplify_eq; eauto|].
    destruct (rooms st !! rc0) as [room|] eqn:Hr; [|simplify_eq; eauto].
    destruct (bool_decide (hostId room = sid)); simplify_eq; simpl in Hr'.
    + split_lookup Hr'; [done | eauto].
    + eapply Hput; [|exact Hr']. apply Hinv in Hr as (H1 & H2 & Hn & H3).
      split_and!; simpl; [done..| |].
      * by apply NoDup_keys_delete.
      * intros k p. destruct (decide (sid = k)) as [->|Hne].
        -- by rewrite get_delete_eq.
        -- rewrite get_delete_ne by done. apply H3.
Qed.

(** What the proofs below use of a reachable state. *)
Lemma reachable_rooms st :
  reachable st ->
  forall rc room, rooms st !! rc = Some room -> room_wf rc room /\ room_ok room.
Proof.
  induction 1 as [|fuel st sid ev st' out _ IH Hstep].
  - intros rc room. simpl. by rewrite lookup_empty.
  - intros rc room Hr. split.
    + eapply room_wf_step; [|exact Hstep|exact Hr]. intros. by apply IH.
    + eapply room_ok_step; [|exact Hstep|exact Hr]. intros.
      by eapply IH.
Qed.

(** X9. In every state the server can reach, each room is stored under its
    own code (and [id]), so no two live rooms share a code; and [players]
    holds one record per connection, stored under the connection identifier
    the record carries. *)
Theorem reachable_rooms_keyed_by_code st rc room :
  reachable st -> rooms st !! rc = Some room ->
  code room = rc /\ roomId room = rc /\
  NoDup (JsMap.keys (players room)) /\
  (forall k p, JsMap.get k (players room) = Some p -> id p = k) /\
  (forall rc2 room2, rooms st !! rc2 = Some room2 -> rc2 ≠ rc ->
                     code room2 ≠ code room).
Proof.
  intros Hst Hr.
  destruct (reachable_rooms st Hst rc room Hr) as [(Hc & Hi & Hn & Hp) _].
  split_and!; try done.
  intros rc2 room2 Hr2 Hne.
  destruct (reachable_rooms st Hst rc2 room2 Hr2) as [(Hc2 & _) _]. congruence.
Qed.

(** The room of [quiz], reached by [quiz_run]. *)
Lemma reachable_rooms_keyed_by_code_witness :
  code quiz_room = "AAAAAA" /\ roomId quiz_room = "AAAAAA" /\
  NoDup (JsMap.keys (players quiz_room)) /\
  (forall k p, JsMap.get k (players quiz_room) = Some p -> id p = k) /\
  (forall rc2 room2, rooms quiz !! rc2 = Some room2 -> rc2 ≠ "AAAAAA" ->
                     code room2 ≠ code quiz_room).
Proof.
  apply (reachable_rooms_keyed_by_code quiz "AAAAAA" quiz_room).
  - apply (run_reachable 0 quiz_run initial); [constructor|].
    vm_compute. reflexivity.
  - vm_compute. reflexivity.
Defined.

(** X10. From a reachable state, every message an event of a connection
    makes the server emit goes either to that connection alone or to the
    broadcast room of a room the connection is bound to before or after the
    event: no message reaches a room the sender has nothing to do with. *)
Theorem messages_stay_in_the_senders_room fuel st sid ev st' out tgt e :
  reachable st ->
  step fuel st sid ev = Some (st', out) ->
  (tgt, e) ∈ out ->
  tgt = ToSocket sid \/
  exists rc, tgt = ToRoom rc /\
             (playerToRoom st !! sid = Some rc \/
              playerToRoom st' !! sid = Some rc).
Proof.
  intros Hst Hstep Hin.
  pose proof (reachable_rooms st Hst) as Hinv.
  destruct ev; simpl in Hstep.
  - unfold createRoom in Hstep.
    destruct (retryCode _ _ _ _ _) as [c0|]; simplify_eq.
    apply list_elem_of_singleton in Hin. simplify_eq. by left.
  - unfold joinAsHost in Hstep.
    destruct (rooms st !! toUpperCase roomCode); simplify_eq;
      apply list_elem_of_singleton in Hin; simplify_eq; by left.
  - unfold joinRoom in Hstep.
    destruct (rooms st !! toUpperCase roomCode) as [room|] eqn:Hr;
      simplify_eq.
    + destruct (Hinv _ _ Hr) as [(Hc & _) _].
      rewrite Hc in Hin. set_unfold in Hin.
      destruct_or!; try done; simplify_eq; [by left|right..];
        (eexists; split; [reflexivity|]; right; simpl;
         by rewrite lookup_insert_eq).
    + apply list_elem_of_singleton in Hin. simplify_eq. by left.
  - unfold startRound in Hstep.
    destruct (hostRoom st sid) as [[rc0 room]|] eqn:E; simplify_eq;
      [|by apply not_elem_of_nil in Hin].
    apply hostRoom_Some in E as (Hb & _). set_unfold in Hin.
    destruct_or!; try done; simplify_eq; right; eauto.
  - unfold stopRound in Hstep.
    destruct (hostRoom st sid) as [[rc0 room]|] eqn:E; simplify_eq;
      [|by apply not_elem_of_nil in Hin].
    apply hostRoom_Some in E as (Hb & _). set_unfold in Hin.
    destruct_or!; try done; simplify_eq; right; eauto.
  - unfold resetRound in Hstep.
    destruct (hostRoom st sid) as [[rc0 room]|] eqn:E; simplify_eq;
      [|by apply not_elem_of_nil in Hin].
    apply hostRoom_Some in E as (Hb & _). set_unfold in Hin.
    destruct_or!; try done; simplify_eq; right; eauto.
  - unfold pressBuzzer in Hstep.
    destruct (playerToRoom st !! sid) as [rc0|] eqn:Hb;
      [|simplify_eq; by apply not_elem_of_nil in Hin].
    repeat case_match; simplify_eq;
      try (by apply not_elem_of_nil in Hin).
    set_unfold in Hin. destruct_or!; try done; simplify_eq; right; eauto.
  - unfold onGetRoomState in Hstep.
    repeat case_match; simplify_eq; try (by apply not_elem_of_nil in Hin).
    apply list_elem_of_singleton in Hin. simplify_eq. by left.
  - unfold disconnect in Hstep.
    destruct (playerToRoom st !! sid) as [rc0|] eqn:Hb;
      [|simplify_eq; by apply not_elem_of_nil in Hin].
    repeat case_match; simplify_eq;
      try (by apply not_elem_of_nil in Hin);
      set_unfold in Hin.
    + destruct_or!; try done; simplify_eq; right; eauto.
    + destruct_or!; try done; simplify_eq; right; eauto.
Qed.

(** The snapshot broadcast when [q] signals in [quiz] goes to the room [q]
    is bound to. *)
Lemma messages_stay_in_the_senders_room_witness :
  ToRoom "AAAAAA" = ToSocket "q" \/
  exists rc, ToRoom "AAAAAA" = ToRoom rc /\
             (playerToRoom quiz !! "q" = Some rc \/
              playerToRoom (fst (pressBuzzer quiz "q" 125)) !! "q" = Some rc).
Proof.
  apply (messages_stay_in_the_senders_room 0 quiz "q" (PressBuzzer 125) _
           (snd (pressBuzzer quiz "q" 125)) (ToRoom "AAAAAA")
           (roomState (getRoomState
              (mkRoom "AAAAAA" "AAAAAA" "h"
                 [("p", mkPlayer "p" "Mona" (Some 10%Z));
                  ("q", mkPlayer "q" "Ravi" (Some 25%Z))]
                 true (Some 100%Z) ["p"; "q"])))).
  - apply (run_reachable 0 quiz_run initial); [constructor|].
    vm_compute. reflexivity.
  - reflexivity.
  - vm_compute. apply list_elem_of_further, list_elem_of_here.
Defined.

(** ** The snapshot (getRoomState) *)

Lemma omap_get_ids (ps : list (string * Player)) (l : list string) :
  (forall k, k ∈ l -> is_Some (JsMap.get k ps)) ->
  (forall k p, JsMap.get k ps = Some p -> id p = k) ->
  id <$> omap (fun i => JsMap.get i ps) l = l.
Proof.
  intros Hall Hid. induction l as [|k l IH]; [done|]. csimpl.
  destruct (Hall k) as [p Hp]; [apply list_elem_of_here|]. rewrite Hp. csimpl.
  rewrite (Hid _ _ Hp), IH; [done|].
  intros k' Hk'. apply Hall. by apply list_elem_of_further.
Qed.

Lemma values_ids (ps : list (string * Player)) :
  NoDup (JsMap.keys ps) ->
  (forall k p, JsMap.get k ps = Some p -> id p = k) ->
  id <$> JsMap.values ps = JsMap.keys ps.
Proof.
  intros Hnd Hid. induction ps as [|[k p] ps IH]; [done|].
  unfold JsMap.values, JsMap.keys in *. csimpl in *.
  apply NoDup_cons in Hnd as [Hk Hnd].
  rewrite (Hid k p) by (simpl; by rewrite decide_True). f_equal.
  apply IH; [done|].
  intros k' p' Hg. apply Hid. simpl. rewrite decide_False; [done|].
  intros ->. apply Hk. by eapply get_Some_keys.
Qed.

(** X11. In every reachable state the snapshot of a room is faithful: it
    carries the room's code and [isActive]; its [players] are the
    contestants' records in insertion order; and its [buzzOrder] resolves
    every arrival, none dropped, so that the record at index [i] is the
    contestant whose connection holds rank [i + 1]. *)
Theorem snapshot_lists_contestants_in_rank_order st rc room :
  reachable st -> rooms st !! rc = Some room ->
  rs_code (getRoomState room) = rc /\
  rs_isActive (getRoomState room) = isActive room /\
  id <$> rs_players (getRoomState room) = JsMap.keys (players room) /\
  id <$> rs_buzzOrder (getRoomState room) = buzzOrder room /\
  length (rs_buzzOrder (getRoomState room)) = length (buzzOrder room) /\
  (forall i p, rs_buzzOrder (getRoomState room) !! i = Some p ->
               buzzOrder room !! i = Some (id p) /\
               JsMap.get (id p) (players room) = Some p).
Proof.
  intros Hst Hr.
  destruct (reachable_rooms st Hst rc room Hr)
    as [(Hc & Hi & Hn & Hp) (Hsub & _)].
  assert (id <$> rs_buzzOrder (getRoomState room) = buzzOrder room) as Hbo
    by by apply omap_get_ids.
  split_and!; try done.
  - by apply values_ids.
  - by rewrite <- Hbo, length_fmap.
  - intros i p Hip. split.
    + rewrite <- Hbo, list_lookup_fmap, Hip. done.
    + apply list_elem_of_lookup_2, list_elem_of_omap in Hip as (k & _ & Hk).
      by rewrite (Hp _ _ Hk).
Qed.

(** The snapshot of the room of [quiz]. *)
Lemma snapshot_lists_contestants_in_rank_order_witness :
  rs_code (getRoomState quiz_room) = "AAAAAA" /\
  rs_isActive (getRoomState quiz_room) = isActive quiz_room /\
  id <$> rs_players (getRoomState quiz_room) = JsMap.keys (players quiz_room) /\
  id <$> rs_buzzOrder (getRoomState quiz_room) = buzzOrder quiz_room /\
  length (rs_buzzOrder (getRoomState quiz_room)) =
    length (buzzOrder quiz_room) /\
  (forall i p, rs_buzzOrder (getRoomState quiz_room) !! i = Some p ->
               buzzOrder quiz_room !! i = Some (id p) /\
               JsMap.get (id p) (players quiz_room) = Some p).
Proof.
  apply (snapshot_lists_contestants_in_rank_order quiz "AAAAAA" quiz_room).
  - apply (run_reachable 0 quiz_run initial); [constructor|].
    vm_compute. reflexivity.
  - vm_compute. reflexivity.
Defined.

(** ** More on joining and leaving *)

(** X12. [disconnect] is idempotent: handling the loss of a connection a
    second time changes nothing and emits nothing. *)
Theorem disconnect_twice_is_disconnect_once st sid :
  disconnect (fst (disconnect st sid)) sid = (fst (disconnect st sid), []).
Proof.
  unfold disconnect at 2 3.
  destruct (playerToRoom st !! sid) as [rc|] eqn:Hb; simpl.
  - destruct (bool_decide (rc = "")) eqn:Hrc; simpl.
    { unfold disconnect. by rewrite Hb, Hrc. }
    destruct (rooms st !! rc) as [room|] eqn:Hr; simpl.
    + destruct (bool_decide (hostId room = sid)); simpl;
        unfold disconnect; simpl; by rewrite lookup_delete_eq.
    + unfold disconnect. by rewrite Hb, Hrc, Hr.
  - unfold disconnect. by rewrite Hb.
Qed.

(** X13. When a connection is lost while it is bound to a room that it is
    not the host of, that room stays; the connection is no contestant of it
    any more, holds no place in its [buzzOrder] and has no binding; the
    other contestants keep their records and their order, in [players] and
    in [buzzOrder]; host and round state are as before; the room is told
    who left and gets a snapshot.  Every other room and every other
    connection's binding is as before: a record that the connection left in
    a room it had joined earlier is not removed. *)
Theorem contestant_departure st sid rc room :
  playerToRoom st !! sid = Some rc -> rc ≠ "" ->
  rooms st !! rc = Some room -> hostId room ≠ sid ->
  exists st' room',
    disconnect st sid =
      (st', [(ToRoom rc, playerLeft sid);
             (ToRoom rc, roomState (getRoomState room'))]) /\
    rooms st' !! rc = Some room' /\
    playerToRoom st' !! sid = None /\
    JsMap.get sid (players room') = None /\
    (sid ∉ buzzOrder room') /\
    JsMap.keys (players room') =
      filter (fun i => i ≠ sid) (JsMap.keys (players room)) /\
    buzzOrder room' = filter (fun i => i ≠ sid) (buzzOrder room) /\
    (forall k, k ≠ sid ->
               JsMap.get k (players room') = JsMap.get k (players room)) /\
    hostId room' = hostId room /\ isActive room' = isActive room /\
    roundStartTime room' = roundStartTime room /\
    (forall rc2, rc2 ≠ rc -> rooms st' !! rc2 = rooms st !! rc2) /\
    (forall sid', sid' ≠ sid ->
                  playerToRoom st' !! sid' = playerToRoom st !! sid').
Proof.
  intros Hb Hne Hr Hh. do 2 eexists. unfold disconnect.
  rewrite Hb, Hr, !bool_decide_eq_false_2 by done.
  split; [reflexivity|]. simpl. rewrite lookup_insert_eq, lookup_delete_eq.
  split; [reflexivity|]. simpl. split_and!; try done.
  - apply get_delete_eq.
  - intros [H _]%list_elem_of_filter. by apply H.
  - apply keys_delete.
  - intros k Hk. by apply get_delete_ne.
  - intros rc2 Hrc2. by rewrite lookup_insert_ne.
  - intros sid' Hs. by rewrite lookup_delete_ne.
Qed.

(** Contestant [p] of [quiz], who holds rank 1, is lost. *)
Lemma contestant_departure_witness :
  exists st' room',
    disconnect quiz "p" =
      (st', [(ToRoom "AAAAAA", playerLeft "p");
             (ToRoom "AAAAAA", roomState (getRoomState room'))]) /\
    rooms st' !! "AAAAAA" = Some room' /\
    playerToRoom st' !! "p" = None /\
    JsMap.get "p" (players room') = None /\
    ("p" ∉ buzzOrder room') /\
    JsMap.keys (players room') =
      filter (fun i => i ≠ "p") (JsMap.keys (players quiz_room)) /\
    buzzOrder room' = filter (fun i => i ≠ "p") (buzzOrder quiz_room) /\
    (forall k, k ≠ "p" ->
               JsMap.get k (players room') = JsMap.get k (players quiz_room)) /\
    hostId room' = hostId quiz_room /\ isActive room' = isActive quiz_room /\
    roundStartTime room' = roundStartTime quiz_room /\
    (forall rc2, rc2 ≠ "AAAAAA" -> rooms st' !! rc2 = rooms quiz !! rc2) /\
    (forall sid', sid' ≠ "p" ->
                  playerToRoom st' !! sid' = playerToRoom quiz !! sid').
Proof.
  apply (contestant_departure quiz "p" "AAAAAA" quiz_room);
    first [discriminate | vm_compute; reflexivity].
Defined.

(** Contestant [p] joins room AAAAAA and signals there, then joins room
    AAAAAB on the same connection, which rebinds it.  When [p] is lost it
    leaves AAAAAB only: in AAAAAA it still is a contestant and still holds
    its place in [buzzOrder]. *)
Example earlier_room_keeps_departed_contestant :
  exists st st' room,
    fst <$> run 0 initial
      [("h", CreateRoom zeros);
       ("g", CreateRoom (fun i => if decide (i = 5) then 1 else 0));
       ("p", JoinRoom "AAAAAA" "Mona"); ("h", StartRound 100);
       ("p", PressBuzzer 110); ("p", JoinRoom "AAAAAB" "Mona")] = Some st /\
    playerToRoom st !! "p" = Some "AAAAAB" /\
    fst (disconnect st "p") = st' /\
    fst <$> snd (disconnect st "p") =
      [ToRoom "AAAAAB"; ToRoom "AAAAAB"] /\
    playerToRoom st' !! "p" = None /\
    rooms st' !! "AAAAAA" = Some room /\
    rooms st !! "AAAAAA" = Some room /\
    JsMap.keys (players room) = ["p"] /\
    buzzOrder room = ["p"].
Proof.
  do 3 eexists. split; [vm_compute; reflexivity|].
  split; [vm_compute; reflexivity|]. split; [reflexivity|].
  split; [vm_compute; reflexivity|]. split; [vm_compute; reflexivity|].
  split; [vm_compute; reflexivity|]. by vm_compute.
Qed.

(** X14. A [joinRoom] repeated with the same arguments changes nothing
    further: the state after the second is the state after the first. *)
Theorem joinRoom_twice_is_joinRoom_once st sid roomCode nm :
  fst (joinRoom (fst (joinRoom st sid roomCode nm)) sid roomCode nm) =
  fst (joinRoom st sid roomCode nm).
Proof.
  unfold joinRoom at 2 3.
  destruct (rooms st !! toUpperCase roomCode) as [room|] eqn:Hr; simpl.
  - unfold joinRoom. simpl. rewrite lookup_insert_eq. simpl.
    by rewrite set_set, !insert_insert_eq.
  - unfold joinRoom. by rewrite Hr.
Qed.

(** X15. A successful [joinRoom] adds exactly one contestant when the
    connection is new to the room, placed last, and none when it is a
    contestant already, whose record is replaced where it stands; nobody
    else's record changes, and [buzzOrder], host and round state are as
    before. *)
Theorem joinRoom_adds_or_replaces st sid roomCode nm room :
  rooms st !! toUpperCase roomCode = Some room ->
  exists room',
    rooms (fst (joinRoom st sid roomCode nm)) !! toUpperCase roomCode =
      Some room' /\
    JsMap.get sid (players room') = Some (mkPlayer sid nm None) /\
    (forall k, k ≠ sid ->
               JsMap.get k (players room') = JsMap.get k (players room)) /\
    (JsMap.get sid (players room) = None ->
     JsMap.keys (players room') = JsMap.keys (players room) ++ [sid] /\
     JsMap.size (players room') = S (JsMap.size (players room))) /\
    (is_Some (JsMap.get sid (players room)) ->
     JsMap.keys (players room') = JsMap.keys (players room) /\
     JsMap.size (players room') = JsMap.size (players room)) /\
    buzzOrder room' = buzzOrder room /\ hostId room' = hostId room /\
    isActive room' = isActive room /\
    roundStartTime room' = roundStartTime room.
Proof.
  intros Hr. eexists. unfold joinRoom. rewrite Hr. simpl.
  rewrite lookup_insert_eq. split; [reflexivity|]. simpl.
  assert (forall m : list (string * Player),
             JsMap.size m = length (JsMap.keys m)) as Hsz
    by (intros m; unfold JsMap.size, JsMap.keys; by rewrite length_map).
  split_and!; try done.
  - apply get_set_eq.
  - intros k Hk. by apply get_set_ne.
  - intros Hn. rewrite !Hsz, keys_set_absent, length_app by done.
    split; [done | simpl; lia].
  - intros Hs. by rewrite !Hsz, keys_set_present.
Qed.

(** A new connection [x] joins the room of [quiz]. *)
Lemma joinRoom_adds_or_replaces_witness :
  exists room',
    rooms (fst (joinRoom quiz "x" "aaaaaa" "Xi")) !! toUpperCase "aaaaaa" =
      Some room' /\
    JsMap.get "x" (players room') = Some (mkPlayer "x" "Xi" None) /\
    (forall k, k ≠ "x" ->
               JsMap.get k (players room') = JsMap.get k (players quiz_room)) /\
    (JsMap.get "x" (players quiz_room) = None ->
     JsMap.keys (players room') = JsMap.keys (players quiz_room) ++ ["x"] /\
     JsMap.size (players room') = S (JsMap.size (players quiz_room))) /\
    (is_Some (JsMap.get "x" (players quiz_room)) ->
     JsMap.keys (players room') = JsMap.keys (players quiz_room) /\
     JsMap.size (players room') = JsMap.size (players quiz_room)) /\
    buzzOrder room' = buzzOrder quiz_room /\ hostId room' = hostId quiz_room /\
    isActive room' = isActive quiz_room /\
    roundStartTime room' = roundStartTime quiz_room.
Proof.
  apply (joinRoom_adds_or_replaces quiz "x" "aaaaaa" "Xi" quiz_room).
  vm_compute. reflexivity.
Defined.

(** ** Host commands *)

(** X16. A [resetRound] of the bound host returns the room to idle: no
    [roundStartTime], [isActive] false, an empty [buzzOrder] and every
    contestant's [buzzTime] null, with the same contestants in the same
    order under the same names; the room is told [roundReset] and gets a
    snapshot whose [buzzOrder] is empty. *)
Theorem resetRound_returns_to_idle st sid rc room :
  playerToRoom st !! sid = Some rc -> rc ≠ "" ->
  rooms st !! rc = Some room -> hostId room = sid ->
  exists room',
    resetRound st sid =
      ({| rooms := <[rc := room']> (rooms st);
          playerToRoom := playerToRoom st |},
       [(ToRoom rc, roundReset);
        (ToRoom rc, roomState (getRoomState room'))]) /\
    status room' = Idle /\
    isActive room' = false /\ roundStartTime room' = None /\
    buzzOrder room' = [] /\
    rs_buzzOrder (getRoomState room') = [] /\
    JsMap.keys (players room') = JsMap.keys (players room) /\
    (forall k, JsMap.get k (players room') =
               clearBuzz <$> JsMap.get k (players room)) /\
    (forall k p, JsMap.get k (players room') = Some p -> buzzTime p = None) /\
    hostId room' = hostId room /\ code room' = code room.
Proof.
  intros Hb Hne Hr Hh.
  assert (hostRoom st sid = Some (rc, room)) as E by by apply hostRoom_Some.
  eexists. unfold resetRound. rewrite E. split; [reflexivity|]. simpl.
  split_and!; try done.
  - apply keys_forEach.
  - intros k. apply get_forEach.
  - intros k p. rewrite get_forEach.
    destruct (JsMap.get k (players room)); simpl; [|done]. by intros [= <-].
Qed.

(** Host [h] resets the round of [quiz]. *)
Lemma resetRound_returns_to_idle_witness :
  exists room',
    resetRound quiz "h" =
      ({| rooms := <["AAAAAA" := room']> (rooms quiz);
          playerToRoom := playerToRoom quiz |},
       [(ToRoom "AAAAAA", roundReset);
        (ToRoom "AAAAAA", roomState (getRoomState room'))]) /\
    status room' = Idle /\
    isActive room' = false /\ roundStartTime room' = None /\
    buzzOrder room' = [] /\
    rs_buzzOrder (getRoomState room') = [] /\
    JsMap.keys (players room') = JsMap.keys (players quiz_room) /\
    (forall k, JsMap.get k (players room') =
               clearBuzz <$> JsMap.get k (players quiz_room)) /\
    (forall k p, JsMap.get k (players room') = Some p -> buzzTime p = None) /\
    hostId room' = hostId quiz_room /\ code room' = code quiz_room.
Proof.
  apply (resetRound_returns_to_idle quiz "h" "AAAAAA" quiz_room);
    first [discriminate | vm_compute; reflexivity].
Defined.

(** X17. [startRound], [stopRound] and [resetRound] from a connection that
    is not the host of the room it is bound to (a contestant, a connection
    bound to no room, or one bound to a room that is gone) do nothing: the
    state is unchanged and nothing is emitted, not even an error. *)
Theorem host_commands_from_others_are_dropped st sid :
  (forall rc room, playerToRoom st !! sid = Some rc ->
                   rooms st !! rc = Some room -> hostId room ≠ sid) ->
  (forall now, startRound st sid now = (st, [])) /\
  stopRound st sid = (st, []) /\
  resetRound st sid = (st, []).
Proof.
  intros Hno.
  assert (hostRoom st sid = None) as E.
  { destruct (hostRoom st sid) as [[rc room]|] eqn:E; [|done].
    apply hostRoom_Some in E as (Hb & _ & Hr & Hh). by destruct (Hno rc room). }
  unfold startRound, stopRound, resetRound. by rewrite E.
Qed.

(** Contestant [p] of [quiz] sends the host's commands. *)
Lemma host_commands_from_others_are_dropped_witness :
  (forall now, startRound quiz "p" now = (quiz, [])) /\
  stopRound quiz "p" = (quiz, []) /\
  resetRound quiz "p" = (quiz, []).
Proof.
  apply (host_commands_from_others_are_dropped quiz "p").
  intros rc room Hb Hr. vm_compute in Hb. injection Hb as <-.
  vm_compute in Hr. injection Hr as <-. discriminate.
Defined.

(** ** The position a contestant's page shows *)

Lemma findIndex_none_app {A} (f : A -> bool) l1 l2 :
  (forall x, x ∈ l1 -> f x = false) ->
  findIndex f (l1 ++ l2) = (fun i => length l1 + i) <$> findIndex f l2.
Proof.
  intros Hno. induction l1 as [|x l1 IH]; simpl.
  - by destruct (findIndex f l2).
  - rewrite (Hno x) by apply list_elem_of_here. rewrite IH.
    + by destruct (findIndex f l2).
    + intros y Hy. apply Hno. by apply list_elem_of_further.
Qed.

Lemma omap_get_length (ps : list (string * Player)) (l : list string) :
  (forall k, k ∈ l -> is_Some (JsMap.get k ps)) ->
  length (omap (fun i => JsMap.get i ps) l) = length l.
Proof.
  intros Hall. induction l as [|k l IH]; [done|]. csimpl.
  destruct (Hall k) as [p Hp]; [apply list_elem_of_here|]. rewrite Hp. csimpl.
  rewrite IH; [done|]. intros k' Hk'. apply Hall. by apply list_elem_of_further.
Qed.

(** X18. When a signal is accepted in a reachable room and no earlier
    arrival of the round carries the same display name, the play page of
    the signalling contestant shows the rank the server announced: the
    position it reads from the [buzzerPressed] event and the one it finds
    by name in the snapshot that follows are both that rank. *)
Theorem play_page_shows_announced_rank
    st sid now rc room player start c :
  reachable st ->
  playerToRoom st !! sid = Some rc -> rc ≠ "" ->
  rooms st !! rc = Some room ->
  isActive room = true ->
  roundStartTime room = Some start -> start ≠ 0%Z ->
  JsMap.get sid (players room) = Some player ->
  buzzTime player = None ->
  (forall k p, k ∈ buzzOrder room -> JsMap.get k (players room) = Some p ->
               name p ≠ name player) ->
  exists st' player' position snapshot,
    pressBuzzer st sid now =
      (st', [(ToRoom rc, buzzerPressed player' position);
             (ToRoom rc, roomState snapshot)]) /\
    position = S (length (buzzOrder room)) /\
    handleBuzzerPressed (name player) player' position c =
      mkPlayState (pl_roomState c) true (Some position) /\
    handleRoomState (name player) snapshot c =
      mkPlayState (Some snapshot) true (Some position).
Proof.
  intros Hst Hb Hne Hr Ha Hs Hz Hp Hbt Hnames.
  destruct (reachable_rooms st Hst rc room Hr) as [_ (Hsub & _)].
  do 4 eexists.
  rewrite (pressBuzzer_accepted _ _ _ _ _ _ _ Hb Hne Hr Ha Hs Hz Hp Hbt).
  cbv zeta. rewrite length_app, Nat.add_1_r. split; [reflexivity|].
  split; [done|]. split.
  - unfold handleBuzzerPressed. simpl. by rewrite bool_decide_eq_true_2.
  - assert (sid ∉ buzzOrder room) as Hsid.
    { intros Hin. by apply (Hnames sid player Hin Hp). }
    unfold handleRoomState, getRoomState. simpl.
    rewrite omap_app. simpl. rewrite get_set_eq. simpl.
    rewrite findIndex_none_app.
    + simpl. rewrite bool_decide_eq_true_2 by done. simpl.
      rewrite omap_get_length, Nat.add_0_r, Nat.add_1_r; [done|].
      intros k Hk. rewrite get_set_ne by congruence. by apply Hsub.
    + intros p (k & Hk & Hkp)%list_elem_of_omap.
      rewrite get_set_ne in Hkp by congruence.
      apply bool_decide_eq_false_2. by eapply Hnames.
Qed.

(** In [quiz] contestant [q] ("Ravi") signals at 125; [p] ("Mona") holds
    rank 1. *)
Lemma play_page_shows_announced_rank_witness :
  exists st' player' position snapshot,
    pressBuzzer quiz "q" 125 =
      (st', [(ToRoom "AAAAAA", buzzerPressed player' position);
             (ToRoom "AAAAAA", roomState snapshot)]) /\
    position = S (length (buzzOrder quiz_room)) /\
    handleBuzzerPressed (name (mkPlayer "q" "Ravi" None)) player' position
        (mkPlayState None false None) =
      mkPlayState (pl_roomState (mkPlayState None false None)) true
                  (Some position) /\
    handleRoomState (name (mkPlayer "q" "Ravi" None)) snapshot
        (mkPlayState None false None) =
      mkPlayState (Some snapshot) true (Some position).
Proof.
  apply (play_page_shows_announced_rank quiz "q" 125 "AAAAAA" quiz_room
           (mkPlayer "q" "Ravi" None) 100 (mkPlayState None false None)).
  - apply (run_reachable 0 quiz_run initial); [constructor|].
    vm_compute. reflexivity.
  - vm_compute. reflexivity.
  - discriminate.
  - vm_compute. reflexivity.
  - reflexivity.
  - reflexivity.
  - discriminate.
  - reflexivity.
  - reflexivity.
  - intros k p Hk Hp. apply list_elem_of_singleton in Hk as ->.
    vm_compute in Hp. injection Hp as <-. discriminate.
Defined.

(** ** Invariants of the round *)

Lemma idle_empty_step fuel st sid ev st' out :
  (forall rc room, rooms st !! rc = Some room -> idle_empty room) ->
  step fuel st sid ev = Some (st', out) ->
  forall rc room, rooms st' !! rc = Some room -> idle_empty room.
Proof.
  intros Hinv Hstep rc room' Hr'.
  assert (forall k r, idle_empty r -> <[k := r]> (rooms st) !! rc = Some room' ->
                      idle_empty room') as Hput.
  { intros k r Hok Hl. split_lookup Hl; simplify_eq; eauto. }
  assert (forall ps k (p : Player),
             JsMap.get k (JsMap.forEach clearBuzz ps) = Some p ->
             buzzTime p = None) as Hclear.
  { intros ps k p. rewrite get_forEach.
    destruct (JsMap.get k ps); simpl; [|done]. by intros [= <-]. }
  destruct ev; simpl in Hstep.
  - unfold createRoom in Hstep.
    destruct (retryCode _ _ _ _ _) as [c0|]; simplify_eq. simpl in Hr'.
    eapply Hput; [|exact Hr']. by intros _.
  - unfold joinAsHost in Hstep.
    destruct (rooms st !! toUpperCase roomCode) as [room|] eqn:Hr;
      simplify_eq; simpl in *; [|eauto].
    eapply Hput; [|exact Hr']. apply Hinv in Hr. exact Hr.
  - unfold joinRoom in Hstep.
    destruct (rooms st !! toUpperCase roomCode) as [room|] eqn:Hr;
      simplify_eq; simpl in *; [|eauto].
    eapply Hput; [|exact Hr']. apply Hinv in Hr. intros Hn. simpl in *.
    destruct (Hr Hn) as [Hb Hp]. split; [done|]. intros k p.
    destruct (decide (sid = k)) as [->|Hne].
    + rewrite get_set_eq. by intros [= <-].
    + rewrite get_set_ne by done. apply Hp.
  - unfold startRound in Hstep.
    destruct (hostRoom st sid) as [[rc0 room]|] eqn:E; simplify_eq;
      simpl in *; [|eauto].
    eapply Hput; [|exact Hr']. by intros ?.
  - unfold stopRound in Hstep.
    destruct (hostRoom st sid) as [[rc0 room]|] eqn:E; simplify_eq;
      simpl in *; [|eauto].
    apply hostRoom_Some in E as (_ & _ & Hr & _).
    eapply Hput; [|exact Hr']. apply Hinv in Hr. exact Hr.
  - unfold resetRound in Hstep.
    destruct (hostRoom st sid) as [[rc0 room]|] eqn:E; simplify_eq;
      simpl in *; [|eauto].
    eapply Hput; [|exact Hr']. intros _. split; [done|]. apply Hclear.
  - unfold pressBuzzer in Hstep.
    destruct (playerToRoom st !! sid) as [rc0|]; [|simplify_eq; eauto].
    destruct (bool_decide (rc0 = "")); [simplify_eq; eauto|].
    destruct (rooms st !! rc0) as [room|] eqn:Hr; [|simplify_eq; eauto].
    destruct (negb (isActive room) || noStart (roundStartTime room));
      [simplify_eq; eauto|].
    destruct (JsMap.get sid (players room)) as [player|];
      [|simplify_eq; eauto].
    destruct (roundStartTime room) as [start|] eqn:Hs;
      [|simplify_eq; eauto].
    destruct (buzzTime player); simplify_eq; [eauto|]. simpl in Hr'.
    eapply Hput; [|exact Hr']. intros Hn. simpl in Hn. congruence.
  - unfold onGetRoomState in Hstep. repeat case_match; simplify_eq; eauto.
  - unfold disconnect in Hstep.
    destruct (playerToRoom st !! sid) as [rc0|]; [|simplify_eq; eauto].
    destruct (bool_decide (rc0 = "")); [simplify_eq; eauto|].
    destruct (rooms st !! rc0) as [room|] eqn:Hr; [|simplify_eq; eauto].
    destruct (bool_decide (hostId room = sid)); simplify_eq; simpl in Hr'.
    + split_lookup Hr'; [done | eauto].
    + eapply Hput; [|exact Hr']. apply Hinv in Hr. intros Hn. simpl in *.
      destruct (Hr Hn) as [Hb Hp]. rewrite Hb. split; [done|]. intros k p.
      destruct (decide (sid = k)) as [->|Hne].
      * by rewrite get_delete_eq.
      * rewrite get_delete_ne by done. apply Hp.
Qed.

Lemma reachable_idle_empty st :
  reachable st ->
  forall rc room, rooms st !! rc = Some room -> idle_empty room.
Proof.
  induction 1 as [|fuel st sid ev st' out _ IH Hstep].
  - intros rc room. simpl. by rewrite lookup_empty.
  - by eapply idle_empty_step.
Qed.

(** X19. In every state the server can reach, in every room: each entry of
    [buzzOrder] is a contestant; a contestant whose [buzzTime] is set is
    listed in [buzzOrder]; an active room has a [roundStartTime]; and a
    room with no [roundStartTime] (never started, or reset) has an empty
    [buzzOrder] and no [buzzTime] set. *)
Theorem reachable_round_is_consistent st rc room :
  reachable st -> rooms st !! rc = Some room ->
  (forall k, k ∈ buzzOrder room -> is_Some (JsMap.get k (players room))) /\
  (forall k p, JsMap.get k (players room) = Some p ->
               is_Some (buzzTime p) -> k ∈ buzzOrder room) /\
  (isActive room = true -> is_Some (roundStartTime room)) /\
  (roundStartTime room = None ->
   buzzOrder room = [] /\
   forall k p, JsMap.get k (players room) = Some p -> buzzTime p = None).
Proof.
  intros Hst Hr.
  destruct (reachable_rooms st Hst rc room Hr) as [_ (H1 & H2 & H3)].
  split_and!; try done. by apply (reachable_idle_empty st Hst rc).
Qed.

(** The room of [quiz], reached by [quiz_run]. *)
Lemma reachable_round_is_consistent_witness :
  (forall k, k ∈ buzzOrder quiz_room ->
             is_Some (JsMap.get k (players quiz_room))) /\
  (forall k p, JsMap.get k (players quiz_room) = Some p ->
               is_Some (buzzTime p) -> k ∈ buzzOrder quiz_room) /\
  (isActive quiz_room = true -> is_Some (roundStartTime quiz_room)) /\
  (roundStartTime quiz_room = None ->
   buzzOrder quiz_room = [] /\
   forall k p, JsMap.get k (players quiz_room) = Some p -> buzzTime p = None).
Proof.
  apply (reachable_round_is_consistent quiz "AAAAAA" quiz_room).
  - apply (run_reachable 0 quiz_run initial); [constructor|].
    vm_compute. reflexivity.
  - vm_compute. reflexivity.
Defined.

(** X20. Along any run from the empty server in which no connection sends
    [joinRoom] for a room whose [buzzOrder] lists it, every room keeps the
    arrival invariants: [buzzOrder] has no duplicate, a connection is
    listed in it exactly when it is a contestant whose [buzzTime] is set,
    and [buzzOrder] is no longer than the room has contestants. *)
Theorem arrivals_consistent_without_rejoin fuel evs st out rc room :
  run fuel initial evs = Some (st, out) ->
  noRejoin fuel initial evs = true ->
  rooms st !! rc = Some room ->
  NoDup (buzzOrder room) /\
  (forall k, k ∈ buzzOrder room <->
             exists p, JsMap.get k (players room) = Some p /\
                       is_Some (buzzTime p)) /\
  length (buzzOrder room) <= JsMap.size (players room).
Proof.
  intros Hrun Hno Hr.
  assert (forall rc0 room0, rooms initial !! rc0 = Some room0 ->
                            room_inv room0) as H0
    by (intros rc0 room0; simpl; by rewrite lookup_empty).
  destruct (invariants_without_rejoin fuel evs initial st out H0 Hno Hrun
              rc room Hr) as [[Hnd Hiff] Hlen].
  done.
Qed.

(** The room of [quiz] after [quiz_run]. *)
Lemma arrivals_consistent_without_rejoin_witness :
  NoDup (buzzOrder quiz_room) /\
  (forall k, k ∈ buzzOrder quiz_room <->
             exists p, JsMap.get k (players quiz_room) = Some p /\
                       is_Some (buzzTime p)) /\
  length (buzzOrder quiz_room) <= JsMap.size (players quiz_room).
Proof.
  assert (exists out, run 0 initial quiz_run = Some (quiz, out)) as [out Hrun]
    by (eexists; vm_compute; reflexivity).
  apply (arrivals_consistent_without_rejoin 0 quiz_run quiz out "AAAAAA"
           quiz_room); [exact Hrun | vm_compute; reflexivity
                       | vm_compute; reflexivity].
Defined.

(** ** The broadcast snapshot and a later request for state *)

(** X21. From a reachable state, the snapshot an event broadcasts to a room
    is the room's state after the event: a connection bound to that room
    that asks with [getRoomState] right afterwards is sent that same
    snapshot, to itself alone, and the request changes nothing. *)
Theorem broadcast_snapshot_is_current fuel st sid ev st' out rc s sid' :
  reachable st ->
  step fuel st sid ev = Some (st', out) ->
  (ToRoom rc, roomState s) ∈ out ->
  playerToRoom st' !! sid' = Some rc -> rc ≠ "" ->
  onGetRoomState st' sid' = (st', [(ToSocket sid', roomState s)]).
Proof.
  intros Hst Hstep Hin Hb Hne.
  pose proof (reachable_rooms st Hst) as Hinv.
  assert (forall room, rooms st' !! rc = Some room -> s = getRoomState room ->
            onGetRoomState st' sid' = (st', [(ToSocket sid', roomState s)]))
    as Hget.
  { intros room Hr ->. unfold onGetRoomState.
    by rewrite Hb, bool_decide_eq_false_2, Hr. }
  destruct ev; simpl in Hstep.
  - unfold createRoom in Hstep.
    destruct (retryCode _ _ _ _ _) as [c0|]; simplify_eq.
    set_unfold in Hin. destruct_or!; by simplify_eq.
  - unfold joinAsHost in Hstep.
    destruct (rooms st !! toUpperCase roomCode); simplify_eq;
      set_unfold in Hin; destruct_or!; by simplify_eq.
  - unfold joinRoom in Hstep.
    destruct (rooms st !! toUpperCase roomCode) as [room|] eqn:Hr;
      simplify_eq; [|set_unfold in Hin; destruct_or!; by simplify_eq].
    destruct (Hinv _ _ Hr) as [(Hc & _) _].
    destruct room as [rid cd hid ps ia rst bo]. simpl in *. subst cd.
    set_unfold in Hin. destruct_or!; try done; simplify_eq.
    eapply Hget; [|reflexivity]. simpl. by rewrite lookup_insert_eq.
  - unfold startRound in Hstep.
    destruct (hostRoom st sid) as [[rc0 room]|] eqn:E; simplify_eq;
      [|by apply not_elem_of_nil in Hin].
    set_unfold in Hin. destruct_or!; try done; simplify_eq.
    eapply Hget; [|reflexivity]. simpl. by rewrite lookup_insert_eq.
  - unfold stopRound in Hstep.
    destruct (hostRoom st sid) as [[rc0 room]|] eqn:E; simplify_eq;
      [|by apply not_elem_of_nil in Hin].
    set_unfold in Hin. destruct_or!; try done; simplify_eq.
    eapply Hget; [|reflexivity]. simpl. by rewrite lookup_insert_eq.
  - unfold resetRound in Hstep.
    destruct (hostRoom st sid) as [[rc0 room]|] eqn:E; simplify_eq;
      [|by apply not_elem_of_nil in Hin].
    set_unfold in Hin. destruct_or!; try done; simplify_eq.
    eapply Hget; [|reflexivity]. simpl. by rewrite lookup_insert_eq.
  - unfold pressBuzzer in Hstep.
    destruct (playerToRoom st !! sid) as [rc0|];
      [|simplify_eq; by apply not_elem_of_nil in Hin].
    destruct (bool_decide (rc0 = ""));
      [simplify_eq; by apply not_elem_of_nil in Hin|].
    destruct (rooms st !! rc0) as [room|];
      [|simplify_eq; by apply not_elem_of_nil in Hin].
    destruct (negb (isActive room) || noStart (roundStartTime room));
      [simplify_eq; by apply not_elem_of_nil in Hin|].
    destruct (JsMap.get sid (players room)) as [player|];
      [|simplify_eq; by apply not_elem_of_nil in Hin].
    destruct (roundStartTime room) as [start|];
      [|simplify_eq; by apply not_elem_of_nil in Hin].
    destruct (buzzTime player); simplify_eq;
      [by apply not_elem_of_nil in Hin|].
    set_unfold in Hin. destruct_or!; try done; simplify_eq.
    eapply Hget; [|reflexivity]. simpl. by rewrite lookup_insert_eq.
  - unfold onGetRoomState in Hstep.
    repeat case_match; simplify_eq; try (by apply not_elem_of_nil in Hin);
      set_unfold in Hin; destruct_or!; by simplify_eq.
  - unfold disconnect in Hstep.
    destruct (playerToRoom st !! sid) as [rc0|];
      [|simplify_eq; by apply not_elem_of_nil in Hin].
    destruct (bool_decide (rc0 = ""));
      [simplify_eq; by apply not_elem_of_nil in Hin|].
    destruct (rooms st !! rc0) as [room|];
      [|simplify_eq; by apply not_elem_of_nil in Hin].
    destruct (bool_decide (hostId room = sid)); simplify_eq;
      set_unfold in Hin; destruct_or!; try done; simplify_eq.
    eapply Hget; [|reflexivity]. simpl. by rewrite lookup_insert_eq.
Qed.

(** [q] signals in [quiz]; the host [h] then asks for the state. *)
Lemma broadcast_snapshot_is_current_witness :
  onGetRoomState (fst (pressBuzzer quiz "q" 125)) "h" =
    (fst (pressBuzzer quiz "q" 125),
     [(ToSocket "h",
       roomState (getRoomState
          (mkRoom "AAAAAA" "AAAAAA" "h"
             [("p", mkPlayer "p" "Mona" (Some 10%Z));
              ("q", mkPlayer "q" "Ravi" (Some 25%Z))]
             true (Some 100%Z) ["p"; "q"])))]).
Proof.
  apply (broadcast_snapshot_is_current 0 quiz "q" (PressBuzzer 125) _
           (snd (pressBuzzer quiz "q" 125)) "AAAAAA").
  - apply (run_reachable 0 quiz_run initial); [constructor|].
    vm_compute. reflexivity.
  - reflexivity.
  - vm_compute. apply list_elem_of_further, list_elem_of_here.
  - vm_compute. reflexivity.
  - discriminate.
Defined.
